(** * nen_python_driver: the NenDB HTTP client, embedded and verified

    A shallow embedding of [src/nen_python_driver/client.py] and
    [src/nen_python_driver/exceptions.py].  Python values are an inductive
    type, dictionaries are finite maps, floats are IEEE binary64 numbers
    ([spec_float] with precision 53 and maximal exponent 1024), exceptions
    are values of a result type, and the [requests] session a client owns is
    an explicit state that every operation threads through. *)

From Stdlib Require Import ZArith Lia Ascii String SpecFloat.
From stdpp Require Import base option strings gmap list.

Open Scope Z_scope.

(** ** Python values *)

(** The values that reach the client: arguments of the operations, JSON
    request bodies and decoded JSON responses. *)
#[warnings="-register-all"]
Inductive pyval :=
| PyNone
| PyBool (b : bool)
| PyInt (z : Z)
| PyFloat (f : spec_float)
| PyStr (s : string)
| PyList (l : list pyval)
| PyDict (d : gmap string pyval).

Abbreviation pydict := (gmap string pyval).

(** [isinstance(v, int)]: [bool] is a subclass of [int]; the value is the
    integer the comparison operators see. *)
Definition as_int (v : pyval) : option Z :=
  match v with
  | PyInt z => Some z
  | PyBool b => Some (Z.b2z b)
  | _ => None
  end.

Definition isinstance_int (v : pyval) : bool := bool_decide (is_Some (as_int v)).

Definition isinstance_float (v : pyval) : bool :=
  match v with PyFloat _ => true | _ => false end.

Definition isinstance_str (v : pyval) : bool :=
  match v with PyStr _ => true | _ => false end.

(** [v < k] for an [int] [v].  The source only evaluates it to the right of
    [not isinstance(v, int) or ...], so the value on other types is never
    observed. *)
Definition int_lt (v : pyval) (k : Z) : bool :=
  match as_int v with Some n => n <? k | None => false end.

(** The float literals [0.0] and [1.0]. *)
Definition float_0_0 : spec_float := S754_zero false.
Definition float_1_0 : spec_float := S754_finite false 4503599627370496 (-52).

(** [a <= b] on floats: IEEE comparison, false when either side is NaN. *)
Definition float_le (a b : spec_float) : bool := SFleb a b.

(** [0.0 <= v <= 1.0] for a [float] [v] (a chained comparison), and
    [v <= 0.0]; both are evaluated only after [isinstance(v, float)]. *)
Definition float_in_0_1 (v : pyval) : bool :=
  match v with
  | PyFloat f => float_le float_0_0 f && float_le f float_1_0
  | _ => false
  end.

Definition float_le_0 (v : pyval) : bool :=
  match v with PyFloat f => float_le f float_0_0 | _ => false end.

(** Truth value testing, as [if filters:] and [details or {}] use it. *)
Definition truthy (v : pyval) : bool :=
  match v with
  | PyNone => false
  | PyBool b => b
  | PyInt z => negb (z =? 0)
  | PyFloat (S754_zero _) => false
  | PyFloat _ => true
  | PyStr s => negb (String.eqb s EmptyString)
  | PyList l => match l with [] => false | _ => true end
  | PyDict d => negb (bool_decide (size d = 0%nat))
  end.

(** [str.rstrip(chars)]: the trailing characters that occur in [chars] are
    removed.  Strings are sequences of bytes here; the byte of "/" occurs in
    no multi-byte UTF-8 sequence, so stripping it byte-wise is stripping it
    character-wise. *)
Fixpoint char_in (a : ascii) (chars : string) : bool :=
  match chars with
  | EmptyString => false
  | String b chars' => Ascii.eqb a b || char_in a chars'
  end.

Fixpoint rstrip (chars s : string) : string :=
  match s with
  | EmptyString => EmptyString
  | String a s' =>
      match rstrip chars s' with
      | EmptyString => if char_in a chars then EmptyString else String a EmptyString
      | r => String a r
      end
  end.

(** An f-string before rendering: literal text and interpolated values.
    [str()] of a float or a dict is left uninterpreted. *)
Inductive frag :=
| Lit (s : string)
| Fmt (v : pyval).

Abbreviation fstring := (list frag).

(** ** exceptions.py *)

Inductive nendb_class :=
| NenDBError
| NenDBConnectionError
| NenDBTimeoutError
| NenDBValidationError
| NenDBAlgorithmError
| NenDBResponseError.

Record nendb_exn := {
  exn_class : nendb_class;
  message : fstring;
  details : pydict
}.

(** [NenDBError.__init__(message, details=None)]: [details or {}]. *)
Definition NenDBError__init__ (cls : nendb_class) (msg : fstring)
    (dets : option pydict) : nendb_exn :=
  {| exn_class := cls; message := msg; details := default ∅ dets |}.

(** [NenDBError.__str__]. *)
Definition NenDBError__str__ (e : nendb_exn) : fstring :=
  if truthy (PyDict (details e))
  then message e ++ [Lit " - Details: "; Fmt (PyDict (details e))]
  else message e.

(** Exceptions that come from outside the driver: the [requests] hierarchy,
    the JSON decoder, the interpreter. *)
Inductive foreign_class :=
| RequestException
| Timeout
| ConnectTimeout
| ReadTimeout
| ConnectionError
| SSLError
| ProxyError
| HTTPError
| RetryError
| TooManyRedirects
| JSONDecodeError
| ValueError
| UnboundLocalError
| OtherException
| KeyboardInterrupt.

Inductive pyexn :=
| NenDB (e : nendb_exn)
| Foreign (c : foreign_class) (msg : string).

Inductive result (A : Type) :=
| Return (a : A)
| Raise (e : pyexn).
Arguments Return {A} a.
Arguments Raise {A} e.

(** [isinstance(e, requests.exceptions.Timeout)] and the like.
    [ConnectTimeout] derives from both [ConnectionError] and [Timeout]. *)
Definition is_Timeout (e : pyexn) : bool :=
  match e with
  | Foreign (Timeout | ConnectTimeout | ReadTimeout) _ => true
  | _ => false
  end.

Definition is_ConnectionError (e : pyexn) : bool :=
  match e with
  | Foreign (ConnectionError | ConnectTimeout | SSLError | ProxyError) _ => true
  | _ => false
  end.

Definition is_HTTPError (e : pyexn) : bool :=
  match e with Foreign HTTPError _ => true | _ => false end.

Definition is_JSONDecodeError (e : pyexn) : bool :=
  match e with Foreign JSONDecodeError _ => true | _ => false end.

(** Everything but [KeyboardInterrupt] derives from [Exception]. *)
Definition is_Exception (e : pyexn) : bool :=
  match e with Foreign KeyboardInterrupt _ => false | _ => true end.

(** [str(e)], as the f-strings of the handlers interpolate it. *)
Definition exn_str (e : pyexn) : fstring :=
  match e with
  | NenDB x => NenDBError__str__ x
  | Foreign _ msg => [Lit msg]
  end.

(** ** The transport: [requests.Session] as the client sees it *)

(** What [urljoin(base, endpoint)] returns when it returns, kept
    symbolic. *)
Inductive url :=
| urljoin (base endpoint : string).

(** [urllib.parse.urljoin] splits its arguments first and raises
    [ValueError] on a base URL it cannot split (a bracket without its
    partner in the host part, say).  Which pairs it turns down is the
    interpreter's business: [urljoin_raises base endpoint] is the text of
    the [ValueError], [None] when the call returns. *)
Class Urllib := {
  urljoin_raises : string -> string -> option string
}.

(** The keyword arguments of [session.request]. *)
Record Request := {
  req_method : string;
  req_url : url;
  req_json : option pydict;
  req_params : option pydict;
  req_timeout : pyval
}.

(** A response object, by what its attributes and methods yield:
    [status_code], [text], the outcome of [json()] and the exception
    [raise_for_status()] raises, if any. *)
Record Response := {
  status_code : Z;
  text : string;
  json : result pyval;
  raise_for_status : option pyexn
}.

(** What [requests] builds from a received HTTP message:
    [raise_for_status] raises [HTTPError] for the 4xx and 5xx codes. *)
Definition http_response (status : Z) (body : string) (decoded : result pyval)
    (reason : string) : Response :=
  {| status_code := status;
     text := body;
     json := decoded;
     raise_for_status :=
       if (400 <=? status) && (status <? 600)
       then Some (Foreign HTTPError reason) else None |}.

(** [urllib3.util.retry.Retry]. *)
Record Retry := {
  total : pyval;
  status_forcelist : list Z;
  allowed_methods : list string;
  backoff_factor : Z
}.

(** The outcome of one [session.request] call, after whatever retries the
    mounted adapter made: it depends on the request and on the calls made
    before it. *)
Abbreviation network := (list Request -> Request -> result Response).

(** A session: the adapters mounted by prefix, the network behind it, the
    [request] calls made so far (what a spy on the method records), the
    hosts with a pooled connection and the connections released so far. *)
Record Session := {
  adapters : gmap string Retry;
  transport : network;
  calls : list Request;
  pool : list string;
  released : list string
}.

(** [requests.Session()]: nothing mounted beyond the built-in adapters,
    nothing pooled. *)
Definition Session_new (net : network) : Session :=
  {| adapters := ∅; transport := net; calls := []; pool := []; released := [] |}.

(** [session.mount(prefix, HTTPAdapter(max_retries=retry))]. *)
Definition mount (prefix : string) (retry : Retry) (s : Session) : Session :=
  {| adapters := <[prefix := retry]> (adapters s);
     transport := transport s; calls := calls s;
     pool := pool s; released := released s |}.

Definition pool_key (u : url) : string :=
  match u with urljoin base _ => base end.

(** [session.request(...)]: the call is recorded; a connection to the host
    stays pooled once an exchange completed. *)
Definition Session_request (s : Session) (req : Request)
    : result Response * Session :=
  let out := transport s (calls s) req in
  (out,
   {| adapters := adapters s; transport := transport s;
      calls := calls s ++ [req];
      pool := match out with
              | Return _ =>
                  if bool_decide (pool_key (req_url req) ∈ pool s) then pool s
                  else pool_key (req_url req) :: pool s
              | Raise _ => pool s
              end;
      released := released s |}).

(** [session.close()]: every adapter clears its pool manager, which
    releases the pooled connections; the session stays usable. *)
Definition Session_close (s : Session) : Session :=
  {| adapters := adapters s; transport := transport s; calls := calls s;
     pool := []; released := released s ++ pool s |}.

(** ** client.py *)

Section Driver.

Context {urllib : Urllib}.

Record NenDBClient := {
  base_url : string;
  timeout : pyval;
  retries : pyval;
  session : Session
}.

Definition set_session (self : NenDBClient) (s : Session) : NenDBClient :=
  {| base_url := base_url self; timeout := timeout self;
     retries := retries self; session := s |}.

(** [_create_session]: a fresh session with the retry strategy mounted for
    both schemes. *)
Definition _create_session (net : network) (retries : pyval) : Session :=
  let retry_strategy :=
    {| total := retries;
       status_forcelist := [429; 500; 502; 503; 504];
       allowed_methods := ["HEAD"; "GET"; "OPTIONS"; "POST"]%string;
       backoff_factor := 1 |} in
  mount "https://" retry_strategy (mount "http://" retry_strategy (Session_new net)).

(** The body of the [try] statement of [_make_request], which is entered
    once [urljoin] has returned the URL: the result, whether the local
    variable [response] was bound when the body was left, and the client
    with the session as the call left it. *)
Definition _make_request_try (self : NenDBClient) (method endpoint : string)
    (data params : option pydict)
    : result pyval * option Response * NenDBClient :=
  let url := urljoin (base_url self) endpoint in
  let '(out, s) :=
    Session_request (session self)
      {| req_method := method; req_url := url; req_json := data;
         req_params := params; req_timeout := timeout self |} in
  let self' := set_session self s in
  match out with
  | Raise e => (Raise e, None, self')
  | Return response =>
      match raise_for_status response with
      | Some e => (Raise e, Some response, self')
      | None =>
          match json response with
          | Return v => (Return v, Some response, self')
          | Raise e =>
              if is_JSONDecodeError e then
                (Raise (NenDB (NenDBError__init__ NenDBResponseError
                   (Lit "Invalid JSON response from server: " :: exn_str e)
                   (Some (<["response_text" := PyStr (text response)]>
                            (<["status_code" := PyInt (status_code response)]> ∅))))),
                 Some response, self')
              else (Raise e, Some response, self')
          end
      end
  end.

(** The handler of [except requests.exceptions.HTTPError as e].  Reading an
    unbound [response] raises [UnboundLocalError]: the inner [try] absorbs
    it, the assignment to [details] after it does not. *)
Definition _make_request_http_error (endpoint : string)
    (response : option Response) (e : pyexn) : pyexn :=
  match response with
  | None =>
      Foreign UnboundLocalError
        "cannot access local variable 'response' where it is not associated with a value"
  | Some response =>
      let fallback :=
        NenDB (NenDBError__init__ NenDBResponseError
          ([Lit "HTTP error on "; Lit endpoint; Lit ": "] ++ exn_str e)
          (Some (<["status_code" := PyInt (status_code response)]> ∅))) in
      match json response with
      | Return (PyDict error_data) =>
          let error_msg :=
            match error_data !! "error"%string with
            | Some v => [Fmt v]
            | None => exn_str e
            end in
          NenDB (NenDBError__init__ NenDBResponseError
            ([Lit "HTTP error on "; Lit endpoint; Lit ": "] ++ error_msg)
            (Some (<["response" := PyDict error_data]>
                     (<["status_code" := PyInt (status_code response)]> ∅))))
      | Return _ => fallback
      | Raise e' => if is_Exception e' then fallback else e'
      end
  end.

(** The [except] clauses of [_make_request], tried in order on an exception
    that left the [try] body; the exception that leaves the function. *)
Definition _make_request_except (self : NenDBClient) (endpoint : string)
    (response : option Response) (e : pyexn) : pyexn :=
  if is_Timeout e then
    NenDB (NenDBError__init__ NenDBTimeoutError
      [Lit "Request to "; Lit endpoint; Lit " timed out after ";
       Fmt (timeout self); Lit " seconds"] None)
  else if is_ConnectionError e then
    NenDB (NenDBError__init__ NenDBConnectionError
      ([Lit "Connection failed to "; Lit endpoint; Lit ": "] ++ exn_str e) None)
  else if is_HTTPError e then
    _make_request_http_error endpoint response e
  else if is_Exception e then
    NenDB (NenDBError__init__ NenDBError
      ([Lit "Unexpected error on "; Lit endpoint; Lit ": "] ++ exn_str e) None)
  else e.

(** [_make_request].  [urljoin] is called before the [try]: a
    [ValueError] it raises leaves the function as it is, and no request is
    made. *)
Definition _make_request (self : NenDBClient) (method endpoint : string)
    (data params : option pydict) : result pyval * NenDBClient :=
  match urljoin_raises (base_url self) endpoint with
  | Some msg => (Raise (Foreign ValueError msg), self)
  | None =>
      let '(r, response, self') :=
        _make_request_try self method endpoint data params in
      match r with
      | Return v => (Return v, self')
      | Raise e => (Raise (_make_request_except self endpoint response e), self')
      end
  end.

Definition health (self : NenDBClient) : result pyval * NenDBClient :=
  _make_request self "GET" "/health" None None.

Definition graph_stats (self : NenDBClient) : result pyval * NenDBClient :=
  _make_request self "GET" "/graph/stats" None None.

Definition validation_error (msg : string) : pyexn :=
  NenDB (NenDBError__init__ NenDBValidationError [Lit msg] None).

(** [bfs(start_node, max_depth=3, filters=None)]. *)
Definition bfs (self : NenDBClient) (start_node max_depth filters : pyval)
    : result pyval * NenDBClient :=
  if negb (isinstance_int start_node) || int_lt start_node 0 then
    (Raise (validation_error "start_node must be a non-negative integer"), self)
  else if negb (isinstance_int max_depth) || int_lt max_depth 1 then
    (Raise (validation_error "max_depth must be a positive integer"), self)
  else
    let data : pydict :=
      <["max_depth" := max_depth]> (<["start_node" := start_node]> ∅) in
    let data := if truthy filters then <["filters" := filters]> data else data in
    _make_request self "POST" "/graph/algorithms/bfs" (Some data) None.

(** [dijkstra(start_node, end_node, weight_property="weight")]. *)
Definition dijkstra (self : NenDBClient) (start_node end_node weight_property : pyval)
    : result pyval * NenDBClient :=
  if negb (isinstance_int start_node) || int_lt start_node 0 then
    (Raise (validation_error "start_node must be a non-negative integer"), self)
  else if negb (isinstance_int end_node) || int_lt end_node 0 then
    (Raise (validation_error "end_node must be a non-negative integer"), self)
  else if negb (isinstance_str weight_property) then
    (Raise (validation_error "weight_property must be a string"), self)
  else
    let data : pydict :=
      <["weight_property" := weight_property]>
        (<["end_node" := end_node]> (<["start_node" := start_node]> ∅)) in
    _make_request self "POST" "/graph/algorithms/dijkstra" (Some data) None.

(** [pagerank(iterations=100, damping_factor=0.85, tolerance=1e-6)]. *)
Definition pagerank (self : NenDBClient) (iterations damping_factor tolerance : pyval)
    : result pyval * NenDBClient :=
  if negb (isinstance_int iterations) || int_lt iterations 1 then
    (Raise (validation_error "iterations must be a positive integer"), self)
  else if negb (isinstance_float damping_factor) || negb (float_in_0_1 damping_factor) then
    (Raise (validation_error "damping_factor must be between 0.0 and 1.0"), self)
  else if negb (isinstance_float tolerance) || float_le_0 tolerance then
    (Raise (validation_error "tolerance must be a positive float"), self)
  else
    let data : pydict :=
      <["tolerance" := tolerance]>
        (<["damping_factor" := damping_factor]> (<["iterations" := iterations]> ∅)) in
    _make_request self "POST" "/graph/algorithms/pagerank" (Some data) None.

(** [close]: a session object is always true, so [session.close()] is
    called every time; the method returns [None]. *)
Definition close (self : NenDBClient) : result pyval * NenDBClient :=
  (Return PyNone, set_session self (Session_close (session self))).

Definition __enter__ (self : NenDBClient) : NenDBClient := self.

Definition __exit__ (self : NenDBClient) : result pyval * NenDBClient :=
  close self.

(** [NenDBClient(base_url, timeout, retries, session, skip_validation)]; an
    argument left out is [None] here and takes the default of the
    signature.  Returns the new client or the exception of the
    constructor, and the session object as construction left it. *)
Definition __init__ (net : network) (base_url_ : option string)
    (timeout_ retries_ : option pyval) (session_ : option Session)
    (skip_validation : option bool) : result NenDBClient * Session :=
  let self :=
    {| base_url := rstrip "/" (default "http://localhost:8080"%string base_url_);
       timeout := default (PyInt 30) timeout_;
       retries := default (PyInt 3) retries_;
       session :=
         match session_ with
         | Some s => s
         | None => _create_session net (default (PyInt 3) retries_)
         end |} in
  if negb (default false skip_validation) then
    match health self with
    | (Return _, self') => (Return self', session self')
    | (Raise e, self') =>
        if is_Exception e then
          (Raise (NenDB (NenDBError__init__ NenDBConnectionError
             ([Lit "Failed to connect to NenDB server at "; Lit (base_url self);
               Lit ": "] ++ exn_str e) None)),
           session self')
        else (Raise e, session self')
    end
  else (Return self, session self).

(** ** Vocabulary of the statements *)

(** A float is a binary64 number. *)
Definition binary64 (f : spec_float) : bool := valid_binary 53 1024 f.

(** The number a finite binary64 denotes, counted in units of [2^-1074],
    the smallest positive binary64; infinities and NaN denote none. *)
Definition float_units (f : spec_float) : option Z :=
  match f with
  | S754_zero _ => Some 0
  | S754_finite s m e => Some (cond_Zopp s (Z.pos m * 2 ^ (e + 1074)))
  | _ => None
  end.

(** The number lies in the interval from 0 to 1 ([2^1074] units). *)
Definition within_0_1 (f : spec_float) : Prop :=
  exists u, float_units f = Some u /\ 0 <= u <= 2 ^ 1074.

(** The number is zero, negative or minus infinity. *)
Definition at_most_0 (f : spec_float) : Prop :=
  f = S754_infinity true \/ exists u, float_units f = Some u /\ u <= 0.

(** The result is a driver exception of class [cls]. *)
Definition raises (cls : nendb_class) (r : result pyval) : Prop :=
  exists x, r = Raise (NenDB x) /\ exn_class x = cls.

(** The outcome of a call that validation turned down: a
    [NenDBValidationError], the client as it was, and no [session.request]
    call beyond those made before. *)
Definition rejected (self : NenDBClient) (out : result pyval * NenDBClient) : Prop :=
  raises NenDBValidationError (fst out) /\
  snd out = self /\
  calls (session (snd out)) = calls (session self).

(** The request an operation hands to [session.request]. *)
Definition request_of (self : NenDBClient) (method endpoint : string)
    (data params : option pydict) : Request :=
  {| req_method := method; req_url := urljoin (base_url self) endpoint;
     req_json := data; req_params := params; req_timeout := timeout self |}.

(** What the session answers to a request made now. *)
Definition answer (self : NenDBClient) (req : Request) : result Response :=
  transport (session self) (calls (session self)) req.

(** [a * n] for a one-character string [a]. *)
Fixpoint str_repeat (a : ascii) (n : nat) : string :=
  match n with
  | O => EmptyString
  | S n' => String a (str_repeat a n')
  end.

Fixpoint last_char (s : string) : option ascii :=
  match s with
  | EmptyString => None
  | String a EmptyString => Some a
  | String _ s' => last_char s'
  end.

(** Every character of [s] occurs in [chars]. *)
Fixpoint all_in (chars s : string) : bool :=
  match s with
  | EmptyString => true
  | String a s' => char_in a chars && all_in chars s'
  end.

Definition dquote : string := String (ascii_of_nat 34) EmptyString.

(** Servers for the examples: one that answers every request with 200 and
    an empty JSON object, one that answers 200 with a body that is not
    JSON, one that answers 404 with a JSON error body, one that cannot be
    reached in time. *)
Definition ok_network : network :=
  fun _ _ => Return (http_response 200 "{}" (Return (PyDict ∅)) "OK").

Definition garbled_response : Response :=
  http_response 200 "<html>"
    (Raise (Foreign JSONDecodeError "Expecting value: line 1 column 1 (char 0)"))
    "OK".

Definition garbled_network : network := fun _ _ => Return garbled_response.

Definition not_found_response : Response :=
  http_response 404
    ("{" ++ dquote ++ "error" ++ dquote ++ ": " ++ dquote ++ "no such route"
         ++ dquote ++ "}")
    (Return (PyDict (<["error" := PyStr "no such route"]> ∅)))
    "404 Client Error: Not Found".

Definition not_found_network : network := fun _ _ => Return not_found_response.

Definition silent_network : network :=
  fun _ _ => Raise (Foreign ConnectTimeout "Connection to localhost timed out.").

(** A client as [NenDBClient(skip_validation=True)] builds it. *)
Definition client_on (net : network) : NenDBClient :=
  {| base_url := "http://localhost:8080"; timeout := PyInt 30;
     retries := PyInt 3; session := _create_session net (PyInt 3) |}.

(** More servers: one that refuses the connection, one whose adapter gave
    up retrying, one behind a session whose response hook raises
    [HTTPError] out of [session.request]. *)
Definition refusing_network : network :=
  fun _ _ => Raise (Foreign ConnectionError "Connection refused").

Definition exhausted_network : network :=
  fun _ _ => Raise (Foreign RetryError "too many 503 error responses").

Definition hooked_network : network :=
  fun _ _ => Raise (Foreign HTTPError "500 Server Error: Internal Server Error").

Definition plain_error_response : Response :=
  http_response 403 "Forbidden"
    (Raise (Foreign JSONDecodeError "Expecting value: line 1 column 1 (char 0)"))
    "403 Client Error: Forbidden".

Definition plain_error_network : network := fun _ _ => Return plain_error_response.

(** [v] is an [int] (or a [bool]) of value at least [lo]. *)
Definition int_at_least (lo : Z) (v : pyval) : Prop :=
  exists n, as_int v = Some n /\ lo <= n.

(** The float [0.85] and a NaN. *)
Definition float_0_85 : spec_float := S754_finite false 7656119366529843 (-53).
Definition float_nan : spec_float := S754_nan.

(** The session a constructor call works with, and the client it has
    built when it reaches the health probe. *)
Definition session_for (net : network) (retries_ : option pyval)
    (session_ : option Session) : Session :=
  match session_ with
  | Some s => s
  | None => _create_session net (default (PyInt 3) retries_)
  end.

Definition client_before_probe (net : network) (base_url_ : option string)
    (timeout_ retries_ : option pyval) (session_ : option Session) : NenDBClient :=
  {| base_url := rstrip "/" (default "http://localhost:8080"%string base_url_);
     timeout := default (PyInt 30) timeout_;
     retries := default (PyInt 3) retries_;
     session := session_for net retries_ session_ |}.

(** ** cli.py *)

(** What the program writes: [print(json.dumps(data))], with [indent=2]
    when pretty-printing; a formatted line; the help text of the parser. *)
Inductive output :=
| Dumps (data : pyval) (indent : option Z)
| Text (s : fstring)
| Help.

Record Console := {
  stdout : list output;
  stderr : list output
}.

(** How a piece of the program ends: it runs to its end, [sys.exit(code)]
    raised [SystemExit], or another exception is on its way up. *)
Inductive control :=
| Normal
| SystemExit (code : Z)
| Uncaught (e : pyexn).

Definition print_to_stdout (o : output) (out : Console) : Console :=
  {| stdout := stdout out ++ [o]; stderr := stderr out |}.

Definition print_to_stderr (o : output) (out : Console) : Console :=
  {| stdout := stdout out; stderr := stderr out ++ [o] |}.

Definition print_json (data : pyval) (pretty : bool) (out : Console) : Console :=
  if pretty then print_to_stdout (Dumps data (Some 2)) out
  else print_to_stdout (Dumps data None) out.

(** The attributes of the parsed arguments; a subcommand reads only its
    own. *)
Record Namespace := {
  args_server : string;
  args_timeout : pyval;
  args_pretty : bool;
  args_command : option string;
  args_start_node : pyval;
  args_max_depth : pyval;
  args_filters : option string;
  args_end_node : pyval;
  args_weight_property : pyval;
  args_iterations : pyval;
  args_damping_factor : pyval;
  args_tolerance : pyval
}.

(** The common shape of the command functions: the result is printed;
    [except NenDBError as e] prints the error and exits with status 1;
    anything else goes up. *)
Definition command_try (r : result pyval * NenDBClient) (args : Namespace)
    (out : Console) : control * Console * NenDBClient :=
  match r with
  | (Return result, client) => (Normal, print_json result (args_pretty args) out, client)
  | (Raise (NenDB e), client) =>
      (SystemExit 1,
       print_to_stderr (Text (Lit "Error: " :: NenDBError__str__ e)) out, client)
  | (Raise e, client) => (Uncaught e, out, client)
  end.

Definition health_command (client : NenDBClient) (args : Namespace) (out : Console)
    : control * Console * NenDBClient :=
  command_try (health client) args out.

Definition stats_command (client : NenDBClient) (args : Namespace) (out : Console)
    : control * Console * NenDBClient :=
  command_try (graph_stats client) args out.

(** [bfs_command]; [json_loads] is [json.loads], which runs inside the
    [try]. *)
Definition bfs_command (json_loads : string -> result pyval)
    (client : NenDBClient) (args : Namespace) (out : Console)
    : control * Console * NenDBClient :=
  match args_filters args with
  | Some (String a s) =>
      match json_loads (String a s) with
      | Return filters =>
          command_try (bfs client (args_start_node args) (args_max_depth args) filters)
            args out
      | Raise e => command_try (Raise e, client) args out
      end
  | _ =>
      command_try (bfs client (args_start_node args) (args_max_depth args) PyNone)
        args out
  end.

Definition dijkstra_command (client : NenDBClient) (args : Namespace) (out : Console)
    : control * Console * NenDBClient :=
  command_try
    (dijkstra client (args_start_node args) (args_end_node args)
       (args_weight_property args))
    args out.

Definition pagerank_command (client : NenDBClient) (args : Namespace) (out : Console)
    : control * Console * NenDBClient :=
  command_try
    (pagerank client (args_iterations args) (args_damping_factor args)
       (args_tolerance args))
    args out.

(** The chain of comparisons on [args.command] in [main]. *)
Definition main_dispatch (json_loads : string -> result pyval) (command : string)
    (client : NenDBClient) (args : Namespace) (out : Console)
    : control * Console * NenDBClient :=
  if String.eqb command "health" then health_command client args out
  else if String.eqb command "stats" then stats_command client args out
  else if String.eqb command "bfs" then bfs_command json_loads client args out
  else if String.eqb command "dijkstra" then dijkstra_command client args out
  else if String.eqb command "pagerank" then pagerank_command client args out
  else
    (SystemExit 1,
     print_to_stderr (Text [Lit "Unknown command: "; Lit command]) out,
     client).

(** The [except NenDBError] and [except KeyboardInterrupt] clauses of
    [main]. *)
Definition main_except (ctl : control) (out : Console) : control * Console :=
  match ctl with
  | Uncaught (NenDB e) =>
      (SystemExit 1,
       print_to_stderr (Text (Lit "Error: " :: NenDBError__str__ e)) out)
  | Uncaught (Foreign KeyboardInterrupt _) =>
      (SystemExit 130,
       print_to_stderr
         (Text [Lit (String (ascii_of_nat 10) "Operation cancelled by user")])
         out)
  | _ => (ctl, out)
  end.

(** [main], from the parsed arguments on.  The client that the [finally]
    clause closed is returned with the outcome; there is none when the
    constructor did not return. *)
Definition main (net : network) (json_loads : string -> result pyval)
    (args : Namespace) (out : Console) : control * Console * option NenDBClient :=
  match args_command args with
  | None | Some EmptyString => (SystemExit 1, print_to_stdout Help out, None)
  | Some command =>
      let '(ctl, out, client) :=
        match __init__ net (Some (args_server args)) (Some (args_timeout args))
                None None None with
        | (Raise e, _) => (Uncaught e, out, None)
        | (Return client, _) =>
            let '(ctl, out, client) :=
              main_dispatch json_loads command client args out in
            (ctl, out, Some client)
        end in
      let '(ctl, out) := main_except ctl out in
      (ctl, out, option_map (fun client => snd (close client)) client)
  end.

(** Arguments as the parser leaves them for [nendb health] and for
    [nendb bfs --start-node N], and [json.loads] on the texts of the
    examples: an empty object, an object cut short, and text that does not
    start a JSON value. *)
Definition health_args : Namespace :=
  {| args_server := "http://localhost:8080"; args_timeout := PyInt 30;
     args_pretty := false; args_command := Some "health"%string;
     args_start_node := PyNone; args_max_depth := PyNone; args_filters := None;
     args_end_node := PyNone; args_weight_property := PyNone;
     args_iterations := PyNone; args_damping_factor := PyNone;
     args_tolerance := PyNone |}.

Definition bfs_args (start_node : Z) (filters : option string) : Namespace :=
  {| args_server := "http://localhost:8080"; args_timeout := PyInt 30;
     args_pretty := false; args_command := Some "bfs"%string;
     args_start_node := PyInt start_node; args_max_depth := PyInt 3;
     args_filters := filters;
     args_end_node := PyNone; args_weight_property := PyNone;
     args_iterations := PyNone; args_damping_factor := PyNone;
     args_tolerance := PyNone |}.

Definition example_loads (s : string) : result pyval :=
  if String.eqb s "{}" then Return (PyDict ∅)
  else if String.eqb s "{start" then
    Raise (Foreign JSONDecodeError
      "Expecting property name enclosed in double quotes: line 1 column 2 (char 1)")
  else Raise (Foreign JSONDecodeError "Expecting value: line 1 column 1 (char 0)").

Definition empty_console : Console := {| stdout := []; stderr := [] |}.

(** ** The operations as a whole *)







(** ** The session the client builds for itself *)







(** [urljoin] on the base URLs of the examples: it turns down the one with
    an opening bracket that is never closed and accepts the others. *)
Definition example_urllib : Urllib :=
  {| urljoin_raises := fun base _ =>
       if String.eqb base "http://[::1" then Some "Invalid IPv6 URL"%string
       else None |}.

(** A client on a base URL that [urljoin] turns down. *)
Definition client_at_unclosed_bracket : NenDBClient :=
  {| base_url := "http://[::1"; timeout := PyInt 30;
     retries := PyInt 3; session := _create_session ok_network (PyInt 3) |}.

(** * Properties *)


(** ** Floats: the comparisons of the source against the numbers denoted *)

(** A mantissa of [d] binary digits lies between [2^(d-1)] and [2^d]. *)
Lemma digits2_pos_bounds (m : positive) :
  2 ^ (Z.pos (digits2_pos m) - 1) <= Z.pos m < 2 ^ Z.pos (digits2_pos m).
Proof.
  induction m as [m IH | m IH |]; cbn [digits2_pos];
    [change (Z.pos m~1) with (2 * Z.pos m + 1)
    |change (Z.pos m~0) with (2 * Z.pos m) | by cbn];
    pose proof (Pos2Z.is_pos (digits2_pos m)) as Hd;
    rewrite Pos2Z.inj_succ;
    replace (Z.succ (Z.pos (digits2_pos m)) - 1)
      with (Z.succ (Z.pos (digits2_pos m) - 1)) by lia;
    rewrite !Z.pow_succ_r by lia; lia.
Qed.

(** A finite binary64 has its exponent at least -1074 and at most 53
    mantissa digits, exactly 53 unless it is subnormal. *)
Lemma binary64_finite (s : bool) (m : positive) (e : Z) :
  binary64 (S754_finite s m e) = true ->
  -1074 <= e /\ Z.pos (digits2_pos m) <= 53 /\
  (-1074 < e -> Z.pos (digits2_pos m) = 53).
Proof.
  unfold binary64, valid_binary, bounded, canonical_mantissa, fexp, emin.
  intros H. apply andb_prop in H as [H _]. apply Z.eqb_eq in H. lia.
Qed.

Lemma units_positive (m : positive) (e : Z) :
  -1074 <= e -> 0 < Z.pos m * 2 ^ (e + 1074).
Proof. intros He. apply Z.mul_pos_pos; [lia | apply Z.pow_pos_nonneg; lia]. Qed.

(** [f <= 1.0] on a positive finite binary64 compares the numbers. *)
Lemma float_le_1_0_units (m : positive) (e : Z) :
  binary64 (S754_finite false m e) = true ->
  float_le (S754_finite false m e) float_1_0 = true <->
  Z.pos m * 2 ^ (e + 1074) <= 2 ^ 1074.
Proof.
  intros Hv. destruct (binary64_finite _ _ _ Hv) as (He & Hd & Hn).
  pose proof (digits2_pos_bounds m) as [Hlo Hhi].
  unfold float_le, SFleb, float_1_0, SFcompare.
  rewrite Pos.compare_cont_spec. cbn [Pos.switch_Eq].
  destruct (Z.compare_spec e (-52)) as [-> | Hlt | Hgt].
  - change (-52 + 1074) with 1022.
    replace (2 ^ 1074) with (2 ^ 52 * 2 ^ 1022)
      by (rewrite <- Z.pow_add_r by lia; reflexivity).
    assert (0 < 2 ^ 1022) as Hp by (apply Z.pow_pos_nonneg; lia).
    revert Hp; generalize (2 ^ 1022); intros p Hp.
    rewrite (Pos2Z.inj_compare m 4503599627370496).
    change (2 ^ 52) with 4503599627370496.
    clear Hlo Hhi Hd Hn Hv.
    destruct (Z.compare_spec (Z.pos m) 4503599627370496) as [Hm | Hm | Hm].
    + rewrite Hm; split; [lia | reflexivity].
    + split; [intros _ | reflexivity]; apply Z.mul_le_mono_nonneg_r; lia.
    + split; [discriminate | intros Hle]. exfalso.
      apply Z.mul_le_mono_pos_r in Hle; lia.
  - split; [intros _ | reflexivity].
    assert (Z.pos m < 2 ^ 53) as Hm.
    { eapply Z.lt_le_trans; [exact Hhi|]. apply Z.pow_le_mono_r; lia. }
    assert (0 < 2 ^ (e + 1074)) as Hp by (apply Z.pow_pos_nonneg; lia).
    assert (Z.pos m * 2 ^ (e + 1074) <= 2 ^ 53 * 2 ^ (e + 1074)) as Hle
      by (apply Z.mul_le_mono_nonneg_r; lia).
    rewrite <- Z.pow_add_r in Hle by lia.
    etrans; [exact Hle|]; apply Z.pow_le_mono_r; lia.
  - split; [discriminate | intros Hle]. exfalso.
    rewrite Hn in Hlo by lia. change (53 - 1) with 52 in Hlo.
    assert (0 < 2 ^ (e + 1074)) as Hp by (apply Z.pow_pos_nonneg; lia).
    assert (2 ^ 52 * 2 ^ (e + 1074) <= Z.pos m * 2 ^ (e + 1074)) as Hge
      by (apply Z.mul_le_mono_nonneg_r; lia).
    rewrite <- Z.pow_add_r in Hge by lia.
    assert (2 ^ 1075 <= 2 ^ (52 + (e + 1074))) as H1
      by (apply Z.pow_le_mono_r; lia).
    assert (2 ^ 1074 < 2 ^ 1075) as H2 by (apply Z.pow_lt_mono_r; lia).
    clear -Hle Hge H1 H2; lia.
Qed.

(** [0.0 <= f <= 1.0] holds exactly for the numbers of the interval. *)
Lemma float_in_0_1_spec (f : spec_float) :
  binary64 f = true ->
  float_le float_0_0 f && float_le f float_1_0 = true <-> within_0_1 f.
Proof.
  intros Hv. unfold within_0_1.
  destruct f as [s | s | | s m e].
  - split; [intros _ | by destruct s].
    exists 0. split; [reflexivity|]. split; [lia|]. apply Z.pow_nonneg; lia.
  - split; [by destruct s | intros (u & Hu & _); discriminate].
  - split; [discriminate | intros (u & Hu & _); discriminate].
  - destruct (binary64_finite _ _ _ Hv) as (He & _).
    pose proof (units_positive m e He) as Hpos.
    destruct s.
    + split; [discriminate | intros (u & [= <-] & Hu)].
      cbn [cond_Zopp] in Hu. lia.
    + change (float_le float_0_0 (S754_finite false m e)) with true.
      rewrite andb_true_l, float_le_1_0_units by exact Hv.
      cbn [float_units cond_Zopp]. split.
      * intros Hle. eexists; split; [reflexivity | lia].
      * intros (u & [= <-] & Hu). lia.
Qed.

(** [f <= 0.0] holds exactly for zero, the negative numbers and minus
    infinity. *)
Lemma float_le_0_spec (f : spec_float) :
  binary64 f = true ->
  float_le f float_0_0 = true <-> at_most_0 f.
Proof.
  intros Hv. unfold at_most_0.
  destruct f as [s | s | | s m e].
  - split; [intros _ | reflexivity]. right. exists 0. split; [reflexivity | lia].
  - destruct s; (split; [intros H | intros [[=] | (u & [=] & _)]]);
      [by left | reflexivity | discriminate].
  - split; [discriminate | intros [[=] | (u & [=] & _)]].
  - destruct (binary64_finite _ _ _ Hv) as (He & _).
    pose proof (units_positive m e He) as Hpos.
    destruct s; cbn [float_units cond_Zopp].
    + split; [intros _ | reflexivity]. right. eexists; split; [reflexivity | lia].
    + split; [discriminate | intros [[=] | (u & [= <-] & Hu)]]. lia.
Qed.

(** ** Validation before dispatch *)

Lemma rejected_intro (self : NenDBClient) (msg : string) :
  rejected self (Raise (validation_error msg), self).
Proof.
  split; [|split; reflexivity].
  eexists; split; reflexivity.
Qed.

Lemma isinstance_int_as_int (v : pyval) (n : Z) :
  as_int v = Some n -> isinstance_int v = true.
Proof.
  intros H. unfold isinstance_int. apply bool_decide_eq_true. by exists n.
Qed.

(** [bfs] either rejects the call on its first test or goes on. *)
Lemma bfs_start_node_negative (self : NenDBClient) (start_node max_depth filters : pyval) :
  int_lt start_node 0 = true ->
  rejected self (bfs self start_node max_depth filters).
Proof.
  intros H. unfold bfs. rewrite H, orb_true_r. apply rejected_intro.
Qed.

Lemma dijkstra_start_node_negative (self : NenDBClient)
    (start_node end_node weight_property : pyval) :
  int_lt start_node 0 = true ->
  rejected self (dijkstra self start_node end_node weight_property).
Proof.
  intros H. unfold dijkstra. rewrite H, orb_true_r. apply rejected_intro.
Qed.

(** C1. For every integer [start_node < 0], [bfs] and [dijkstra] raise
    [NenDBValidationError] whatever their other arguments are, and the
    session has recorded no [request] call: the client, with its session,
    is as it was before the call. *)
Theorem negative_start_node_rejected (self : NenDBClient) (start_node : Z)
    (max_depth filters end_node weight_property : pyval) :
  start_node < 0 ->
  rejected self (bfs self (PyInt start_node) max_depth filters) /\
  rejected self (dijkstra self (PyInt start_node) end_node weight_property).
Proof.
  intros Hneg.
  assert (int_lt (PyInt start_node) 0 = true) as Hlt
    by (unfold int_lt; cbn [as_int]; apply Z.ltb_lt, Hneg).
  split.
  - by apply bfs_start_node_negative.
  - by apply dijkstra_start_node_negative.
Qed.

(** The three tests of [pagerank], one by one. *)
Lemma pagerank_iterations_rejected (self : NenDBClient)
    (iterations damping_factor tolerance : pyval) :
  negb (isinstance_int iterations) || int_lt iterations 1 = true ->
  rejected self (pagerank self iterations damping_factor tolerance).
Proof. intros H. unfold pagerank. rewrite H. apply rejected_intro. Qed.

Lemma pagerank_damping_factor_rejected (self : NenDBClient)
    (iterations damping_factor tolerance : pyval) :
  negb (isinstance_float damping_factor) || negb (float_in_0_1 damping_factor) = true ->
  rejected self (pagerank self iterations damping_factor tolerance).
Proof.
  intros H. unfold pagerank. rewrite H.
  destruct (negb (isinstance_int iterations) || int_lt iterations 1);
    apply rejected_intro.
Qed.

Lemma pagerank_tolerance_rejected (self : NenDBClient)
    (iterations damping_factor tolerance : pyval) :
  negb (isinstance_float tolerance) || float_le_0 tolerance = true ->
  rejected self (pagerank self iterations damping_factor tolerance).
Proof.
  intros H. unfold pagerank. rewrite H.
  destruct (negb (isinstance_int iterations) || int_lt iterations 1);
    [apply rejected_intro|].
  destruct (negb (isinstance_float damping_factor) || negb (float_in_0_1 damping_factor));
    apply rejected_intro.
Qed.

(** C3. A [pagerank] call is rejected before dispatch, with no request
    made, when [iterations] is an integer below 1, or [damping_factor] is a
    float that does not denote a number between 0 and 1 (NaN and the
    infinities included), or [tolerance] is a float that is zero, negative
    or minus infinity; whatever the other two arguments are. *)
Theorem pagerank_out_of_range_rejected (self : NenDBClient)
    (iterations damping_factor tolerance : pyval) :
  (exists n, as_int iterations = Some n /\ n < 1) \/
  (exists f, damping_factor = PyFloat f /\ binary64 f = true /\ ~ within_0_1 f) \/
  (exists f, tolerance = PyFloat f /\ binary64 f = true /\ at_most_0 f) ->
  rejected self (pagerank self iterations damping_factor tolerance).
Proof.
  intros [(n & Hn & Hlt) | [(f & -> & Hv & Hout) | (f & -> & Hv & Hle)]].
  - apply pagerank_iterations_rejected.
    unfold int_lt. rewrite Hn. apply orb_true_iff. right. by apply Z.ltb_lt.
  - apply pagerank_damping_factor_rejected. cbn [isinstance_float negb orb float_in_0_1].
    apply negb_true_iff, not_true_is_false. intros Hin.
    apply Hout. by apply float_in_0_1_spec.
  - apply pagerank_tolerance_rejected. cbn [isinstance_float negb orb float_le_0].
    by apply float_le_0_spec.
Qed.

(** C9. An [int] passed as [damping_factor], whatever its value (0 and 1
    included), makes [pagerank] raise [NenDBValidationError] with no
    request made; so does an [int] passed as [tolerance]. *)
Theorem pagerank_int_for_float_rejected (self : NenDBClient) (z : Z)
    (iterations damping_factor tolerance : pyval) :
  rejected self (pagerank self iterations (PyInt z) tolerance) /\
  rejected self (pagerank self iterations damping_factor (PyInt z)).
Proof.
  split.
  - by apply pagerank_damping_factor_rejected.
  - by apply pagerank_tolerance_rejected.
Qed.

(** C4, amended. A [weight_property] that is not a [str] makes [dijkstra]
    raise [NenDBValidationError] with no request made, whatever the node
    arguments are. *)
Theorem dijkstra_weight_property_not_str_rejected (self : NenDBClient)
    (start_node end_node weight_property : pyval) :
  isinstance_str weight_property = false ->
  rejected self (dijkstra self start_node end_node weight_property).
Proof.
  intros H. unfold dijkstra. rewrite H.
  destruct (negb (isinstance_int start_node) || int_lt start_node 0);
    [apply rejected_intro|].
  destruct (negb (isinstance_int end_node) || int_lt end_node 0);
    apply rejected_intro.
Qed.

(** ** [_make_request]: how the outcome of the exchange is classified *)

Lemma _make_request_transport_raises (self : NenDBClient) (method endpoint : string)
    (data params : option pydict) (e : pyexn) :
  urljoin_raises (base_url self) endpoint = None ->
  answer self (request_of self method endpoint data params) = Raise e ->
  fst (_make_request self method endpoint data params)
    = Raise (_make_request_except self endpoint None e).
Proof.
  unfold answer, request_of, _make_request, _make_request_try, Session_request.
  intros Hu ->. by rewrite Hu.
Qed.

Lemma _make_request_status_raises (self : NenDBClient) (method endpoint : string)
    (data params : option pydict) (response : Response) (e : pyexn) :
  urljoin_raises (base_url self) endpoint = None ->
  answer self (request_of self method endpoint data params) = Return response ->
  raise_for_status response = Some e ->
  fst (_make_request self method endpoint data params)
    = Raise (_make_request_except self endpoint (Some response) e).
Proof.
  unfold answer, request_of, _make_request, _make_request_try, Session_request.
  intros Hu -> ->. by rewrite Hu.
Qed.

Lemma _make_request_json_returns (self : NenDBClient) (method endpoint : string)
    (data params : option pydict) (response : Response) (v : pyval) :
  urljoin_raises (base_url self) endpoint = None ->
  answer self (request_of self method endpoint data params) = Return response ->
  raise_for_status response = None ->
  json response = Return v ->
  fst (_make_request self method endpoint data params) = Return v.
Proof.
  unfold answer, request_of, _make_request, _make_request_try, Session_request.
  intros Hu -> -> ->. by rewrite Hu.
Qed.

Lemma _make_request_json_raises (self : NenDBClient) (method endpoint : string)
    (data params : option pydict) (response : Response) (e : pyexn) :
  urljoin_raises (base_url self) endpoint = None ->
  answer self (request_of self method endpoint data params) = Return response ->
  raise_for_status response = None ->
  json response = Raise e ->
  fst (_make_request self method endpoint data params)
    = Raise (_make_request_except self endpoint (Some response)
        (if is_JSONDecodeError e then
           NenDB (NenDBError__init__ NenDBResponseError
             (Lit "Invalid JSON response from server: " :: exn_str e)
             (Some (<["response_text" := PyStr (text response)]>
                      (<["status_code" := PyInt (status_code response)]> ∅))))
         else e)).
Proof.
  unfold answer, request_of, _make_request, _make_request_try, Session_request.
  intros Hu -> -> ->. rewrite Hu. by destruct (is_JSONDecodeError e).
Qed.

(** The error raised for undecodable JSON is raised inside the [try] body,
    where [except Exception] catches it: what leaves [_make_request] is a
    plain [NenDBError] without details. *)
Lemma invalid_json_leaves_as_generic (self : NenDBClient) (method endpoint : string)
    (data params : option pydict) (response : Response) (e : pyexn) :
  urljoin_raises (base_url self) endpoint = None ->
  answer self (request_of self method endpoint data params) = Return response ->
  raise_for_status response = None ->
  json response = Raise e ->
  is_JSONDecodeError e = true ->
  exists x, fst (_make_request self method endpoint data params) = Raise (NenDB x) /\
    exn_class x = NenDBError /\ details x = ∅.
Proof.
  intros Hu Ha Hs Hj He.
  rewrite (_make_request_json_raises _ _ _ _ _ _ _ Hu Ha Hs Hj), He.
  eexists. split; [reflexivity|]. split; reflexivity.
Qed.




(** ** Construction and release *)

(** No operation touches the configuration of the client. *)
Lemma _make_request_configuration (self : NenDBClient) (method endpoint : string)
    (data params : option pydict) :
  base_url (snd (_make_request self method endpoint data params)) = base_url self /\
  timeout (snd (_make_request self method endpoint data params)) = timeout self /\
  retries (snd (_make_request self method endpoint data params)) = retries self.
Proof.
  unfold _make_request, _make_request_try, Session_request.
  destruct (urljoin_raises _ _); [done|].
  destruct (transport _ _ _) as [response | e]; [|done].
  destruct (raise_for_status response); [done|].
  destruct (json response) as [v | e]; [done|].
  by destruct (is_JSONDecodeError e).
Qed.

(** What [__init__] returns, when it returns a client, has the attributes
    the arguments give. *)
Lemma __init___attributes (net : network) (base_url_ : option string)
    (timeout_ retries_ : option pyval) (session_ : option Session)
    (skip_validation : option bool) (c : NenDBClient) :
  fst (__init__ net base_url_ timeout_ retries_ session_ skip_validation) = Return c ->
  base_url c = rstrip "/" (default "http://localhost:8080"%string base_url_) /\
  timeout c = default (PyInt 30) timeout_ /\
  retries c = default (PyInt 3) retries_.
Proof.
  unfold __init__.
  destruct (negb (default false skip_validation)).
  - unfold health.
    match goal with
    | |- context [_make_request ?s ?m ?ep ?d ?p] =>
        pose proof (_make_request_configuration s m ep d p) as (Hb & Ht & Hr);
        destruct (_make_request s m ep d p) as [[v | e] self']
    end.
    + intros [= <-]. exact (conj Hb (conj Ht Hr)).
    + by destruct (is_Exception e).
  - intros [= <-]. done.
Qed.

(** With the probe skipped, construction always yields a client. *)
Lemma __init___skip_validation (net : network) (base_url_ : option string)
    (timeout_ retries_ : option pyval) (session_ : option Session) :
  exists c,
    fst (__init__ net base_url_ timeout_ retries_ session_ (Some true)) = Return c.
Proof. eexists. reflexivity. Qed.


(** C8. [close] raises nothing and returns [None]; a second [close] leaves
    the client exactly as the first left it, so nothing is released again:
    the connections released are those that were pooled before the first
    call, each once; and [close] leaves [base_url], [timeout], [retries]
    and the mounted adapters as they were. *)
Theorem close_idempotent (self : NenDBClient) :
  fst (close self) = Return PyNone /\
  close (snd (close self)) = (Return PyNone, snd (close self)) /\
  released (session (snd (close (snd (close self)))))
    = released (session self) ++ pool (session self) /\
  pool (session (snd (close self))) = [] /\
  base_url (snd (close self)) = base_url self /\
  timeout (snd (close self)) = timeout self /\
  retries (snd (close self)) = retries self /\
  adapters (session (snd (close self))) = adapters (session self).
Proof.
  unfold close, set_session, Session_close. cbn.
  rewrite app_nil_r. repeat split; reflexivity.
Qed.

(** ** [rstrip] *)

(** What [rstrip] returns is a prefix of its argument, and what it cut off
    consists of characters to strip. *)
Lemma rstrip_decompose (chars s : string) :
  exists t, s = (rstrip chars s ++ t)%string /\ all_in chars t = true.
Proof.
  induction s as [|a s (t & Hs & Ht)].
  - exists EmptyString. by split.
  - cbn [rstrip]. destruct (rstrip chars s) as [|b r] eqn:Hr.
    + destruct (char_in a chars) eqn:Ha.
      * exists (String a s). split; [reflexivity|].
        cbn. rewrite Ha. cbn in Hs. by rewrite Hs.
      * exists s. split; [reflexivity|]. cbn in Hs. by rewrite Hs.
    + exists t. split; [|exact Ht]. cbn. by rewrite Hs at 1.
Qed.

(** What [rstrip] returns does not end with a character to strip. *)
Lemma rstrip_last_char (chars s : string) (a : ascii) :
  last_char (rstrip chars s) = Some a -> char_in a chars = false.
Proof.
  induction s as [|b s IH]; [discriminate|].
  cbn [rstrip]. destruct (rstrip chars s) as [|c r] eqn:Hr.
  - destruct (char_in b chars) eqn:Hb; [discriminate|].
    intros [= <-]. exact Hb.
  - intros H. apply IH. exact H.
Qed.

Lemma all_in_single (c : ascii) (t : string) :
  all_in (String c EmptyString) t = true -> t = str_repeat c (String.length t).
Proof.
  induction t as [|a t IH]; [reflexivity|].
  cbn. rewrite orb_false_r. intros [Ha Ht]%andb_prop.
  apply Ascii.eqb_eq in Ha as ->. by rewrite <- IH.
Qed.

(** C10. The [base_url] of a constructed client is the argument with its
    trailing "/" characters removed: it is [rstrip "/"] of the argument,
    the argument is it followed by some number of "/", it does not end
    with "/", and so it differs from an argument that ends with "/". *)
Theorem base_url_trailing_slashes_removed (net : network) (base_url_ : string)
    (timeout_ retries_ : option pyval) (session_ : option Session)
    (skip_validation : option bool) (c : NenDBClient) :
  fst (__init__ net (Some base_url_) timeout_ retries_ session_ skip_validation)
    = Return c ->
  base_url c = rstrip "/" base_url_ /\
  (exists k, base_url_ = (base_url c ++ str_repeat "/" k)%string) /\
  last_char (base_url c) <> Some "/"%char /\
  (last_char base_url_ = Some "/"%char -> base_url c <> base_url_).
Proof.
  intros H. apply __init___attributes in H as (Hb & _). cbn [default] in Hb.
  assert (last_char (base_url c) <> Some "/"%char) as Hlast.
  { rewrite Hb. intros H%rstrip_last_char. discriminate H. }
  split; [exact Hb|]. split; [|split; [exact Hlast|]].
  - destruct (rstrip_decompose "/" base_url_) as (t & Hs & Ht).
    exists (String.length t). rewrite Hb, <- (all_in_single _ _ Ht). exact Hs.
  - intros Hend Heq. apply Hlast. by rewrite Heq.
Qed.

(** ** Dispatch: what every operation does with the session *)

(** The effect of [_make_request] on the client, whatever the outcome. *)
Lemma _make_request_effect (self : NenDBClient)
    (method endpoint : string) (data params : option pydict) :
  let self' := snd (_make_request self method endpoint data params) in
  match urljoin_raises (base_url self) endpoint with
  | None =>
      calls (session self')
        = calls (session self) ++ [request_of self method endpoint data params]
  | Some msg =>
      calls (session self') = calls (session self) /\
      fst (_make_request self method endpoint data params)
        = Raise (Foreign ValueError msg)
  end /\
  base_url self' = base_url self /\
  timeout self' = timeout self /\
  retries self' = retries self /\
  adapters (session self') = adapters (session self) /\
  released (session self') = released (session self).
Proof.
  unfold _make_request, _make_request_try, Session_request, request_of.
  destruct (urljoin_raises _ _); [done|].
  destruct (transport _ _ _) as [response | e]; [|done].
  destruct (raise_for_status response); [done|].
  destruct (json response) as [v | e]; [done|].
  by destruct (is_JSONDecodeError e).
Qed.

(** X1. When [urljoin] builds the URL, [_make_request] calls
    [session.request] exactly once, whatever the outcome: the recorded
    calls grow by the one request built from the client's [base_url] and
    [timeout].  When [urljoin] raises [ValueError], no call is made and
    the [ValueError] leaves the function as it is.  Either way the
    configuration, the mounted adapters and the released connections are
    left as they were. *)
Theorem _make_request_records_one_call (self : NenDBClient)
    (method endpoint : string) (data params : option pydict) :
  let self' := snd (_make_request self method endpoint data params) in
  match urljoin_raises (base_url self) endpoint with
  | None =>
      calls (session self')
        = calls (session self) ++ [request_of self method endpoint data params]
  | Some msg =>
      calls (session self') = calls (session self) /\
      fst (_make_request self method endpoint data params)
        = Raise (Foreign ValueError msg)
  end /\
  base_url self' = base_url self /\
  timeout self' = timeout self /\
  retries self' = retries self /\
  adapters (session self') = adapters (session self) /\
  released (session self') = released (session self).
Proof. apply _make_request_effect. Qed.

(** A call that went through [_make_request] was not turned down by
    validation: the session has one more call. *)
Lemma _make_request_not_rejected (self : NenDBClient)
    (method endpoint : string) (data params : option pydict) :
  ~ rejected self (_make_request self method endpoint data params).
Proof.
  intros ((x & Hx & Hcls) & _ & H).
  pose proof (_make_request_effect self method endpoint data params)
    as [Hc _].
  cbn zeta in Hc. destruct (urljoin_raises _ _).
  - destruct Hc as [_ Hc]. rewrite Hc in Hx. discriminate Hx.
  - rewrite Hc in H.
    apply (f_equal length) in H. rewrite length_app in H. cbn in H. lia.
Qed.

(** X2. A response on which [raise_for_status()] is silent and whose
    [json()] returns [v] makes [_make_request] return [v] itself, whatever
    its shape and whatever the status code. *)
Theorem decoded_body_returned_verbatim (self : NenDBClient)
    (method endpoint : string) (data params : option pydict)
    (response : Response) (v : pyval) :
  urljoin_raises (base_url self) endpoint = None ->
  answer self (request_of self method endpoint data params) = Return response ->
  raise_for_status response = None ->
  json response = Return v ->
  fst (_make_request self method endpoint data params) = Return v.
Proof. apply _make_request_json_returns. Qed.

(** X3. A [ConnectionError] of the transport that is not a timeout
    ([ConnectionError] itself, [SSLError], [ProxyError]) leaves
    [_make_request] as [NenDBConnectionError] with empty details and a
    message that names the endpoint and quotes the transport's text. *)
Theorem transport_connection_error_classified (self : NenDBClient)
    (method endpoint : string) (data params : option pydict) (e : pyexn) :
  urljoin_raises (base_url self) endpoint = None ->
  answer self (request_of self method endpoint data params) = Raise e ->
  is_ConnectionError e = true ->
  is_Timeout e = false ->
  fst (_make_request self method endpoint data params)
    = Raise (NenDB {| exn_class := NenDBConnectionError;
                      message := [Lit "Connection failed to "; Lit endpoint; Lit ": "]
                                   ++ exn_str e;
                      details := ∅ |}).
Proof.
  intros Hu Ha Hc Ht.
  rewrite (_make_request_transport_raises _ _ _ _ _ _ Hu Ha).
  unfold _make_request_except. by rewrite Ht, Hc.
Qed.

(** X4. Any other exception of the transport that derives from
    [Exception] (a [RetryError] after the adapter gave up, too many
    redirects, ...) leaves [_make_request] as an error of the base class
    [NenDBError], with empty details. *)
Theorem transport_unexpected_error_wrapped (self : NenDBClient)
    (method endpoint : string) (data params : option pydict) (e : pyexn) :
  urljoin_raises (base_url self) endpoint = None ->
  answer self (request_of self method endpoint data params) = Raise e ->
  is_Timeout e = false ->
  is_ConnectionError e = false ->
  is_HTTPError e = false ->
  is_Exception e = true ->
  fst (_make_request self method endpoint data params)
    = Raise (NenDB {| exn_class := NenDBError;
                      message := [Lit "Unexpected error on "; Lit endpoint; Lit ": "]
                                   ++ exn_str e;
                      details := ∅ |}).
Proof.
  intros Hu Ha Ht Hc Hh He.
  rewrite (_make_request_transport_raises _ _ _ _ _ _ Hu Ha).
  unfold _make_request_except. by rewrite Ht, Hc, Hh, He.
Qed.

(** X5. [_make_request] lets no exception of the transport through as it
    is: when [session.request] itself raises neither [HTTPError] nor
    something outside [Exception], and the response's methods raise
    nothing outside [Exception], the call returns a value or raises a
    driver exception. *)
Theorem _make_request_raises_driver_errors (self : NenDBClient)
    (method endpoint : string) (data params : option pydict) :
  urljoin_raises (base_url self) endpoint = None ->
  (forall e, answer self (request_of self method endpoint data params) = Raise e ->
             is_HTTPError e = false /\ is_Exception e = true) ->
  (forall response e,
     answer self (request_of self method endpoint data params) = Return response ->
     raise_for_status response = Some e \/ json response = Raise e ->
     is_Exception e = true) ->
  (exists v, fst (_make_request self method endpoint data params) = Return v) \/
  (exists x, fst (_make_request self method endpoint data params) = Raise (NenDB x)).
Proof.
  intros Hu Ht Hr.
  destruct (answer self (request_of self method endpoint data params))
    as [response | e] eqn:Ha.
  - destruct (raise_for_status response) as [e|] eqn:Hs.
    + right. rewrite (_make_request_status_raises _ _ _ _ _ _ _ Hu Ha Hs).
      pose proof (Hr response e eq_refl (or_introl Hs)) as He.
      unfold _make_request_except.
      destruct (is_Timeout e); [by eexists|].
      destruct (is_ConnectionError e); [by eexists|].
      destruct (is_HTTPError e); [|rewrite He; by eexists].
      unfold _make_request_http_error.
      destruct (json response) as [v | e'] eqn:Hj.
      * destruct v; by eexists.
      * rewrite (Hr response e' eq_refl (or_intror Hj)). by eexists.
    + destruct (json response) as [v | e] eqn:Hj.
      * left. exists v. by apply _make_request_json_returns with response.
      * right. rewrite (_make_request_json_raises _ _ _ _ _ _ _ Hu Ha Hs Hj).
        pose proof (Hr response e eq_refl (or_intror Hj)) as He.
        destruct (is_JSONDecodeError e); [by eexists|].
        unfold _make_request_except.
        destruct (is_Timeout e); [by eexists|].
        destruct (is_ConnectionError e); [by eexists|].
        destruct (is_HTTPError e); [|rewrite He; by eexists].
        unfold _make_request_http_error. rewrite Hj, He. by eexists.
  - right. rewrite (_make_request_transport_raises _ _ _ _ _ _ Hu Ha).
    destruct (Ht e eq_refl) as [Hh He].
    unfold _make_request_except. rewrite Hh, He.
    destruct (is_Timeout e); [by eexists|].
    destruct (is_ConnectionError e); by eexists.
Qed.

(** X6. When [session.request] itself raises [HTTPError] (a response hook
    that calls [raise_for_status], say), the handler reads the local
    [response] that was never bound: what leaves [_make_request] is an
    [UnboundLocalError], not a driver exception. *)
Theorem transport_http_error_unbound_response (self : NenDBClient)
    (method endpoint : string) (data params : option pydict) (e : pyexn) :
  urljoin_raises (base_url self) endpoint = None ->
  answer self (request_of self method endpoint data params) = Raise e ->
  is_HTTPError e = true ->
  exists msg,
    fst (_make_request self method endpoint data params)
      = Raise (Foreign UnboundLocalError msg).
Proof.
  intros Hu Ha Hh.
  rewrite (_make_request_transport_raises _ _ _ _ _ _ Hu Ha).
  destruct e as [x | c msg]; [discriminate Hh|].
  destruct c; try discriminate Hh. by eexists.
Qed.

(** X7. On an HTTP error whose body decodes to a JSON object, the error
    raised carries the whole object under [response] next to
    [status_code], and its message ends with the object's [error] entry
    when there is one, with the text of the [HTTPError] otherwise. *)
Theorem http_error_body_object_reported (self : NenDBClient)
    (method endpoint : string) (data params : option pydict)
    (response : Response) (e : pyexn) (error_data : pydict) :
  urljoin_raises (base_url self) endpoint = None ->
  answer self (request_of self method endpoint data params) = Return response ->
  raise_for_status response = Some e ->
  is_HTTPError e = true ->
  json response = Return (PyDict error_data) ->
  exists x,
    fst (_make_request self method endpoint data params) = Raise (NenDB x) /\
    exn_class x = NenDBResponseError /\
    details x !! "response" = Some (PyDict error_data) /\
    details x !! "status_code" = Some (PyInt (status_code response)) /\
    message x = [Lit "HTTP error on "; Lit endpoint; Lit ": "]
                  ++ match error_data !! "error" with
                     | Some v => [Fmt v]
                     | None => exn_str e
                     end.
Proof.
  intros Hu Ha Hs Hh Hj.
  rewrite (_make_request_status_raises _ _ _ _ _ _ _ Hu Ha Hs).
  destruct e as [x | c msg]; [discriminate Hh|].
  destruct c; try discriminate Hh.
  unfold _make_request_except, _make_request_http_error.
  cbn [is_Timeout is_ConnectionError is_HTTPError]. rewrite Hj.
  eexists. split; [reflexivity|]. repeat split; reflexivity.
Qed.

(** X8. On an HTTP error whose body is not a JSON object (it does not
    decode, or decodes to a list, a number, a string, a boolean or null),
    the details hold the status code and nothing else, and the message
    quotes the text of the [HTTPError]. *)
Theorem http_error_body_fallback (self : NenDBClient)
    (method endpoint : string) (data params : option pydict)
    (response : Response) (e : pyexn) :
  urljoin_raises (base_url self) endpoint = None ->
  answer self (request_of self method endpoint data params) = Return response ->
  raise_for_status response = Some e ->
  is_HTTPError e = true ->
  match json response with
  | Return (PyDict _) => False
  | Return _ => True
  | Raise e' => is_Exception e' = true
  end ->
  fst (_make_request self method endpoint data params)
    = Raise (NenDB {| exn_class := NenDBResponseError;
                      message := [Lit "HTTP error on "; Lit endpoint; Lit ": "]
                                   ++ exn_str e;
                      details := {[ "status_code"%string := PyInt (status_code response) ]} |}).
Proof.
  intros Hu Ha Hs Hh Hj.
  rewrite (_make_request_status_raises _ _ _ _ _ _ _ Hu Ha Hs).
  destruct e as [x | c msg]; [discriminate Hh|].
  destruct c; try discriminate Hh.
  unfold _make_request_except, _make_request_http_error.
  cbn [is_Timeout is_ConnectionError is_HTTPError].
  destruct (json response) as [v | e'].
  - by destruct v.
  - by rewrite Hj.
Qed.

(** ** The operations: which calls are dispatched, and with what payload *)

Lemma int_test_false (lo : Z) (v : pyval) :
  negb (isinstance_int v) || int_lt v lo = false <-> int_at_least lo v.
Proof.
  unfold isinstance_int, int_lt, int_at_least.
  destruct (as_int v) as [n|]; split.
  - intros [_ H]%orb_false_iff. exists n. split; [done|]. by apply Z.ltb_ge.
  - intros (m & [= <-] & Hm). apply orb_false_iff. split.
    + apply negb_false_iff, bool_decide_eq_true. by eexists.
    + by apply Z.ltb_ge.
  - intros [H _]%orb_false_iff. apply negb_false_iff, bool_decide_eq_true in H.
    by destruct H.
  - intros (m & [=] & _).
Qed.

Lemma int_test_true (lo : Z) (v : pyval) :
  negb (isinstance_int v) || int_lt v lo = true <-> ~ int_at_least lo v.
Proof.
  rewrite <- int_test_false. by destruct (negb (isinstance_int v) || int_lt v lo).
Qed.

(** X9. [bfs] turns a call down exactly when [start_node] is not an
    integer of value 0 or more or [max_depth] is not an integer of value 1
    or more ([True] and [False] count as the integers 1 and 0); [filters]
    plays no part. *)
Theorem bfs_rejected_iff (self : NenDBClient) (start_node max_depth filters : pyval) :
  rejected self (bfs self start_node max_depth filters) <->
  ~ (int_at_least 0 start_node /\ int_at_least 1 max_depth).
Proof.
  unfold bfs.
  destruct (negb (isinstance_int start_node) || int_lt start_node 0) eqn:Hs.
  { split; [|intros _; apply rejected_intro].
    intros _ [H _]. by apply int_test_true in Hs. }
  destruct (negb (isinstance_int max_depth) || int_lt max_depth 1) eqn:Hd.
  { split; [|intros _; apply rejected_intro].
    intros _ [_ H]. by apply int_test_true in Hd. }
  apply int_test_false in Hs, Hd. split.
  - intros H. by apply _make_request_not_rejected in H.
  - intros H. by destruct H.
Qed.

(** X10. A [bfs] call that passes validation is one [POST] to
    [/graph/algorithms/bfs] whose JSON body holds [start_node] and
    [max_depth] as given, and [filters] only when it is true: [None] and
    an empty mapping are left out of the body. *)
Theorem bfs_request_payload (self : NenDBClient) (start_node max_depth filters : pyval) :
  int_at_least 0 start_node ->
  int_at_least 1 max_depth ->
  exists data : pydict,
    bfs self start_node max_depth filters
      = _make_request self "POST" "/graph/algorithms/bfs" (Some data) None /\
    data !! "start_node" = Some start_node /\
    data !! "max_depth" = Some max_depth /\
    data !! "filters" = (if truthy filters then Some filters else None) /\
    size data = (if truthy filters then 3 else 2)%nat.
Proof.
  intros Hs%int_test_false Hd%int_test_false. unfold bfs. rewrite Hs, Hd.
  eexists. split; [reflexivity|].
  destruct (truthy filters); repeat split; reflexivity.
Qed.

(** X11. [dijkstra] turns a call down exactly when [start_node] or
    [end_node] is not an integer of value 0 or more or [weight_property]
    is not a string; every string, the empty one included, is let
    through. *)
Theorem dijkstra_rejected_iff (self : NenDBClient)
    (start_node end_node weight_property : pyval) :
  rejected self (dijkstra self start_node end_node weight_property) <->
  ~ (int_at_least 0 start_node /\ int_at_least 0 end_node /\
     exists s, weight_property = PyStr s).
Proof.
  unfold dijkstra.
  destruct (negb (isinstance_int start_node) || int_lt start_node 0) eqn:Hs.
  { split; [|intros _; apply rejected_intro].
    intros _ (H & _). by apply int_test_true in Hs. }
  destruct (negb (isinstance_int end_node) || int_lt end_node 0) eqn:He.
  { split; [|intros _; apply rejected_intro].
    intros _ (_ & H & _). by apply int_test_true in He. }
  destruct (isinstance_str weight_property) eqn:Hw; cbn [negb].
  - apply int_test_false in Hs, He. split.
    + intros H. by apply _make_request_not_rejected in H.
    + intros H. destruct H. repeat split; try done.
      destruct weight_property; try discriminate Hw. by eexists.
  - split; [|intros _; apply rejected_intro].
    intros _ (_ & _ & s & ->). discriminate Hw.
Qed.

(** X12. A [dijkstra] call that passes validation is one [POST] to
    [/graph/algorithms/dijkstra] whose JSON body holds exactly
    [start_node], [end_node] and [weight_property], as given. *)
Theorem dijkstra_request_payload (self : NenDBClient)
    (start_node end_node : pyval) (weight_property : string) :
  int_at_least 0 start_node ->
  int_at_least 0 end_node ->
  exists data : pydict,
    dijkstra self start_node end_node (PyStr weight_property)
      = _make_request self "POST" "/graph/algorithms/dijkstra" (Some data) None /\
    data !! "start_node" = Some start_node /\
    data !! "end_node" = Some end_node /\
    data !! "weight_property" = Some (PyStr weight_property) /\
    size data = 3%nat.
Proof.
  intros Hs%int_test_false He%int_test_false. unfold dijkstra. rewrite Hs, He.
  eexists. split; [reflexivity|]. repeat split; reflexivity.
Qed.

(** X13. For binary64 arguments, [pagerank] turns a call down exactly
    when [iterations] is not an integer of value 1 or more, or
    [damping_factor] is not a float denoting a number from 0 to 1, or
    [tolerance] is not a float, or is one that is zero, negative or minus
    infinity.  A NaN or an infinite [tolerance] is therefore let
    through. *)
Theorem pagerank_rejected_iff (self : NenDBClient)
    (iterations damping_factor tolerance : pyval) :
  (forall f, damping_factor = PyFloat f -> binary64 f = true) ->
  (forall f, tolerance = PyFloat f -> binary64 f = true) ->
  rejected self (pagerank self iterations damping_factor tolerance) <->
  ~ (int_at_least 1 iterations /\
     (exists f, damping_factor = PyFloat f /\ within_0_1 f) /\
     (exists f, tolerance = PyFloat f /\ ~ at_most_0 f)).
Proof.
  intros Hvd Hvt. unfold pagerank.
  destruct (negb (isinstance_int iterations) || int_lt iterations 1) eqn:Hi.
  { split; [|intros _; apply rejected_intro].
    intros _ (H & _). by apply int_test_true in Hi. }
  apply int_test_false in Hi.
  destruct damping_factor as [| | |d| | |];
    try (split; [intros _ (_ & (f & [=] & _) & _) | intros _; apply rejected_intro]).
  cbn [isinstance_float negb orb float_in_0_1].
  pose proof (float_in_0_1_spec d (Hvd d eq_refl)) as Hd.
  destruct (float_le float_0_0 d && float_le d float_1_0) eqn:Hdd; cbn [negb].
  2:{ split; [|intros _; apply rejected_intro].
      intros _ (_ & (f & [= <-] & Hf) & _). apply Hd in Hf. discriminate Hf. }
  destruct tolerance as [| | |t| | |];
    try (split; [intros _ (_ & _ & (f & [=] & _)) | intros _; apply rejected_intro]).
  cbn [isinstance_float negb orb float_le_0].
  pose proof (float_le_0_spec t (Hvt t eq_refl)) as Ht.
  destruct (float_le t float_0_0) eqn:Htt.
  { split; [|intros _; apply rejected_intro].
    intros _ (_ & _ & (f & [= <-] & Hf)). apply Hf, Ht. reflexivity. }
  split.
  - intros H. by apply _make_request_not_rejected in H.
  - intros H. destruct H. split; [exact Hi|]. split.
    + exists d. split; [reflexivity|]. by apply Hd.
    + exists t. split; [reflexivity|]. intros Hf%Ht. discriminate Hf.
Qed.

(** X14. A [pagerank] call that passes validation is one [POST] to
    [/graph/algorithms/pagerank] whose JSON body holds exactly
    [iterations], [damping_factor] and [tolerance], as given. *)
Theorem pagerank_request_payload (self : NenDBClient)
    (iterations damping_factor tolerance : pyval) :
  ~ rejected self (pagerank self iterations damping_factor tolerance) ->
  exists data : pydict,
    pagerank self iterations damping_factor tolerance
      = _make_request self "POST" "/graph/algorithms/pagerank" (Some data) None /\
    data !! "iterations" = Some iterations /\
    data !! "damping_factor" = Some damping_factor /\
    data !! "tolerance" = Some tolerance /\
    size data = 3%nat.
Proof.
  unfold pagerank. intros H.
  destruct (negb (isinstance_int iterations) || int_lt iterations 1);
    [destruct H; apply rejected_intro|].
  destruct (negb (isinstance_float damping_factor) || negb (float_in_0_1 damping_factor));
    [destruct H; apply rejected_intro|].
  destruct (negb (isinstance_float tolerance) || float_le_0 tolerance);
    [destruct H; apply rejected_intro|].
  eexists. split; [reflexivity|]. repeat split; reflexivity.
Qed.

(** X15. Every operation makes at most one [session.request] call, keeps
    the calls recorded before it, and sends the client's own [timeout] to
    a URL under the client's own [base_url]. *)
Theorem operations_call_at_most_once (self : NenDBClient)
    (a b c : pyval) (out : result pyval * NenDBClient) :
  out = health self \/ out = graph_stats self \/ out = bfs self a b c \/
  out = dijkstra self a b c \/ out = pagerank self a b c ->
  calls (session (snd out)) = calls (session self) \/
  exists req,
    calls (session (snd out)) = calls (session self) ++ [req] /\
    req_timeout req = timeout self /\
    exists endpoint, req_url req = urljoin (base_url self) endpoint.
Proof.
  assert (forall method endpoint data params,
    calls (session (snd (_make_request self method endpoint data params)))
      = calls (session self) \/
    exists req,
      calls (session (snd (_make_request self method endpoint data params)))
        = calls (session self) ++ [req] /\
      req_timeout req = timeout self /\
      exists endpoint, req_url req = urljoin (base_url self) endpoint) as Hmk.
  { intros method endpoint data params.
    pose proof (_make_request_effect self method endpoint data params) as [Hc _].
    cbn zeta in Hc. destruct (urljoin_raises _ _); [left; apply Hc|].
    right. exists (request_of self method endpoint data params).
    split; [exact Hc|]. split; [reflexivity|]. by exists endpoint. }
  intros [-> | [-> | [-> | [-> | ->]]]].
  - apply Hmk.
  - apply Hmk.
  - unfold bfs. repeat (case_match; [by left|]). apply Hmk.
  - unfold dijkstra. repeat (case_match; [by left|]). apply Hmk.
  - unfold pagerank. repeat (case_match; [by left|]). apply Hmk.
Qed.

(** ** The constructor *)

Lemma __init___unfold (net : network) (base_url_ : option string)
    (timeout_ retries_ : option pyval) (session_ : option Session)
    (skip_validation : option bool) :
  __init__ net base_url_ timeout_ retries_ session_ skip_validation
  = let self := client_before_probe net base_url_ timeout_ retries_ session_ in
    if default false skip_validation then (Return self, session self)
    else match health self with
         | (Return _, self') => (Return self', session self')
         | (Raise e, self') =>
             if is_Exception e then
               (Raise (NenDB (NenDBError__init__ NenDBConnectionError
                  ([Lit "Failed to connect to NenDB server at "; Lit (base_url self);
                    Lit ": "] ++ exn_str e) None)),
                session self')
             else (Raise e, session self')
         end.
Proof. unfold __init__. by destruct (default false skip_validation). Qed.

(** X16. Unless [skip_validation] is set, the constructor makes exactly
    one request on the session when [urljoin] builds the probe's URL, [GET
    /health] under the stripped base URL with the configured timeout,
    whether the probe succeeds or not; it makes none when [urljoin] turns
    the base URL down, and none with [skip_validation]. *)
Theorem constructor_probes_once (net : network) (base_url_ : option string)
    (timeout_ retries_ : option pyval) (session_ : option Session)
    (skip_validation : option bool) :
  calls (snd (__init__ net base_url_ timeout_ retries_ session_ skip_validation))
  = if default false skip_validation
    then calls (session_for net retries_ session_)
    else
      match urljoin_raises
              (rstrip "/" (default "http://localhost:8080"%string base_url_))
              "/health" with
      | Some _ => calls (session_for net retries_ session_)
      | None =>
          calls (session_for net retries_ session_) ++
          [{| req_method := "GET";
              req_url := urljoin
                (rstrip "/" (default "http://localhost:8080"%string base_url_))
                "/health";
              req_json := None; req_params := None;
              req_timeout := default (PyInt 30) timeout_ |}]
      end.
Proof.
  rewrite __init___unfold. cbn zeta.
  destruct (default false skip_validation); [reflexivity|].
  pose proof (_make_request_effect
    (client_before_probe net base_url_ timeout_ retries_ session_)
    "GET" "/health" None None) as [Hc _].
  cbn zeta in Hc. unfold health.
  change (base_url (client_before_probe net base_url_ timeout_ retries_ session_))
    with (rstrip "/" (default "http://localhost:8080"%string base_url_)) in Hc.
  assert (calls (session (snd (_make_request
            (client_before_probe net base_url_ timeout_ retries_ session_)
            "GET" "/health" None None)))
          = match urljoin_raises
                    (rstrip "/" (default "http://localhost:8080"%string base_url_))
                    "/health" with
            | Some _ => calls (session_for net retries_ session_)
            | None =>
                calls (session_for net retries_ session_) ++
                [{| req_method := "GET";
                    req_url := urljoin
                      (rstrip "/" (default "http://localhost:8080"%string base_url_))
                      "/health";
                    req_json := None; req_params := None;
                    req_timeout := default (PyInt 30) timeout_ |}]
            end) as Hcalls.
  { destruct (urljoin_raises _ _); [apply Hc | exact Hc]. }
  destruct (_make_request _ _ _ _ _) as [[v | e] self']; cbn [snd] in *.
  - exact Hcalls.
  - destruct (is_Exception e); exact Hcalls.
Qed.

(** What the constructor raises when the probe raised a driver error. *)
Lemma __init___probe_raises (net : network)
    (base_url_ : option string) (timeout_ retries_ : option pyval)
    (session_ : option Session) (skip_validation : option bool) (x : nendb_exn) :
  default false skip_validation = false ->
  fst (health (client_before_probe net base_url_ timeout_ retries_ session_))
    = Raise (NenDB x) ->
  fst (__init__ net base_url_ timeout_ retries_ session_ skip_validation)
  = Raise (NenDB
      {| exn_class := NenDBConnectionError;
         message :=
           [Lit "Failed to connect to NenDB server at ";
            Lit (rstrip "/" (default "http://localhost:8080"%string base_url_));
            Lit ": "] ++ NenDBError__str__ x;
         details := ∅ |}).
Proof.
  intros Hskip Hh. rewrite __init___unfold, Hskip. cbn zeta.
  destruct (health _) as [r self']. cbn [fst] in Hh. by rewrite Hh.
Qed.

(** X17. When the startup probe fails with a driver error of any class (a
    timeout and an HTTP error status included), the constructor raises
    [NenDBConnectionError]; the original error survives only as text in
    the message, after the stripped base URL, and the details are
    empty. *)
Theorem constructor_probe_failure_is_connection_error (net : network)
    (base_url_ : option string) (timeout_ retries_ : option pyval)
    (session_ : option Session) (skip_validation : option bool) (x : nendb_exn) :
  default false skip_validation = false ->
  fst (health (client_before_probe net base_url_ timeout_ retries_ session_))
    = Raise (NenDB x) ->
  fst (__init__ net base_url_ timeout_ retries_ session_ skip_validation)
  = Raise (NenDB
      {| exn_class := NenDBConnectionError;
         message :=
           [Lit "Failed to connect to NenDB server at ";
            Lit (rstrip "/" (default "http://localhost:8080"%string base_url_));
            Lit ": "] ++ NenDBError__str__ x;
         details := ∅ |}).
Proof. apply __init___probe_raises. Qed.

(** X18. Without a [session] argument the client builds its own session,
    with one retry strategy mounted for both schemes: [total] is the
    [retries] argument (3 when left out), the status codes retried are
    429, 500, 502, 503 and 504, the methods [HEAD], [GET], [OPTIONS] and
    [POST], the backoff factor 1.  A session passed in is used as it is:
    nothing is mounted on it. *)
Theorem constructor_session (net : network) (base_url_ : option string)
    (timeout_ retries_ : option pyval) (given : Session)
    (skip_validation : option bool) :
  let strategy :=
    {| total := default (PyInt 3) retries_;
       status_forcelist := [429; 500; 502; 503; 504];
       allowed_methods := ["HEAD"; "GET"; "OPTIONS"; "POST"]%string;
       backoff_factor := 1 |} in
  adapters (snd (__init__ net base_url_ timeout_ retries_ None skip_validation))
    = {[ "http://"%string := strategy; "https://"%string := strategy ]} /\
  adapters (snd (__init__ net base_url_ timeout_ retries_ (Some given) skip_validation))
    = adapters given.
Proof.
  cbn zeta.
  assert (forall session_,
    adapters (snd (__init__ net base_url_ timeout_ retries_ session_ skip_validation))
    = adapters (session_for net retries_ session_)) as H.
  { intros session_. rewrite __init___unfold. cbn zeta.
    destruct (default false skip_validation); [reflexivity|].
    pose proof (_make_request_effect
      (client_before_probe net base_url_ timeout_ retries_ session_)
      "GET" "/health" None None) as (_ & _ & _ & _ & Ha & _).
    cbn zeta in Ha. unfold health.
    destruct (_make_request _ _ _ _ _) as [[v | e] self']; cbn [snd] in *.
    - exact Ha.
    - destruct (is_Exception e); exact Ha. }
  rewrite !H. split; [|reflexivity].
  cbn [session_for _create_session mount adapters Session_new].
  apply map_eq. intros k.
  destruct (decide (k = "https://"%string)) as [-> | Hs]; [reflexivity|].
  destruct (decide (k = "http://"%string)) as [-> | Hh]; [reflexivity|].
  rewrite !lookup_insert_ne by done. by rewrite lookup_singleton_ne.
Qed.

(** [rstrip] leaves a string that does not end with a character to strip
    as it is. *)
Lemma rstrip_fixed (chars s : string) :
  (forall a, last_char s = Some a -> char_in a chars = false) ->
  rstrip chars s = s.
Proof.
  induction s as [|a s IH]; [reflexivity|].
  intros H. cbn [rstrip]. destruct s as [|b s].
  - cbn. by rewrite (H a eq_refl).
  - rewrite IH by exact H. reflexivity.
Qed.

(** X19. A base URL that does not end with "/" is reported back as it is
    (the empty string included). *)
Theorem base_url_verbatim_without_trailing_slash (net : network) (base_url_ : string)
    (timeout_ retries_ : option pyval) (session_ : option Session)
    (skip_validation : option bool) (c : NenDBClient) :
  last_char base_url_ <> Some "/"%char ->
  fst (__init__ net (Some base_url_) timeout_ retries_ session_ skip_validation)
    = Return c ->
  base_url c = base_url_.
Proof.
  intros Hlast H. apply __init___attributes in H as (Hb & _).
  rewrite Hb. cbn [default]. apply rstrip_fixed.
  intros a Ha. cbn. rewrite orb_false_r. apply Ascii.eqb_neq.
  intros ->. by apply Hlast.
Qed.

(** X20. Normalising a base URL twice is normalising it once: a client
    built from the [base_url] of another client reports the same
    [base_url]. *)
Theorem base_url_normalisation_idempotent (net net' : network) (base_url_ : string)
    (timeout_ retries_ timeout' retries' : option pyval)
    (session_ session' : option Session) (skip skip' : option bool)
    (c c' : NenDBClient) :
  fst (__init__ net (Some base_url_) timeout_ retries_ session_ skip) = Return c ->
  fst (__init__ net' (Some (base_url c)) timeout' retries' session' skip') = Return c' ->
  base_url c' = base_url c.
Proof.
  intros H H'.
  apply __init___attributes in H as (Hb & _).
  apply __init___attributes in H' as (Hb' & _).
  rewrite Hb'. cbn [default]. apply rstrip_fixed.
  intros a Ha. rewrite Hb in Ha. by apply rstrip_last_char in Ha.
Qed.

(** ** Error values and release *)

Lemma truthy_PyDict (d : pydict) : truthy (PyDict d) = false <-> d = ∅.
Proof.
  cbn [truthy]. rewrite negb_false_iff, bool_decide_eq_true.
  apply map_size_empty_iff.
Qed.

(** X21. An error built without details, or with an empty mapping, prints
    as its bare message; one built with a non-empty mapping prints the
    message, then [" - Details: "], then the mapping. *)
Theorem NenDBError__str___cases (cls : nendb_class) (msg : fstring)
    (dets : option pydict) :
  (dets = None \/ dets = Some ∅ ->
   NenDBError__str__ (NenDBError__init__ cls msg dets) = msg) /\
  (forall d, dets = Some d -> d <> ∅ ->
   NenDBError__str__ (NenDBError__init__ cls msg dets)
     = msg ++ [Lit " - Details: "; Fmt (PyDict d)]).
Proof.
  unfold NenDBError__str__, NenDBError__init__. cbn [details message]. split.
  - intros [-> | ->]; reflexivity.
  - intros d -> Hd. change (default ∅ (Some d)) with d.
    destruct (truthy (PyDict d)) eqn:Ht; [reflexivity|].
    by apply truthy_PyDict in Ht.
Qed.

(** X22. [close] does not disable the client: a request made after it is
    sent, recorded and answered exactly as it would have been without the
    [close]. *)
Theorem request_after_close (self : NenDBClient) (method endpoint : string)
    (data params : option pydict) :
  fst (_make_request (snd (close self)) method endpoint data params)
    = fst (_make_request self method endpoint data params) /\
  calls (session (snd (_make_request (snd (close self)) method endpoint data params)))
    = calls (session (snd (_make_request self method endpoint data params))).
Proof.
  unfold close, _make_request, _make_request_try,
    Session_request, set_session, Session_close.
  cbn [fst snd session calls transport base_url timeout pool req_url pool_key].
  destruct (urljoin_raises _ _); [done|].
  destruct (transport _ _ _) as [response | e]; [|done].
  destruct (raise_for_status response); [done|].
  destruct (json response) as [v | e]; [done|].
  by destruct (is_JSONDecodeError e).
Qed.

(** ** The command line *)

(** X23. [nendb health] asks the server twice: when the startup probe of
    the constructor succeeds, the session of the client has seen exactly
    two requests when [main] ends, both [GET /health] under the stripped
    server URL with the [--timeout] value, whatever the second answer
    is. *)
Theorem main_health_probes_twice (net : network)
    (json_loads : string -> result pyval) (args : Namespace) (out : Console)
    (v : pyval) :
  args_command args = Some "health"%string ->
  fst (health (client_before_probe net (Some (args_server args))
                 (Some (args_timeout args)) None None)) = Return v ->
  exists client,
    snd (main net json_loads args out) = Some client /\
    calls (session client)
      = [ {| req_method := "GET";
             req_url := urljoin (rstrip "/" (args_server args)) "/health";
             req_json := None; req_params := None;
             req_timeout := args_timeout args |};
          {| req_method := "GET";
             req_url := urljoin (rstrip "/" (args_server args)) "/health";
             req_json := None; req_params := None;
             req_timeout := args_timeout args |} ].
Proof.
  intros Hcmd Hprobe. unfold main. rewrite Hcmd, __init___unfold.
  cbn [default String.eqb Ascii.eqb Bool.eqb]. cbn zeta.
  set (self := client_before_probe _ _ _ _ _) in *.
  unfold health in Hprobe |- *.
  pose proof (_make_request_effect self "GET" "/health" None None) as H1.
  cbn zeta in H1.
  destruct (_make_request self "GET" "/health" None None) as [r1 self1].
  cbn [fst snd] in *. subst r1.
  destruct H1 as (Hc1 & Hb1 & Ht1 & _).
  destruct (urljoin_raises (base_url self) "/health") eqn:Hu;
    [destruct Hc1 as [_ [=]]|].
  unfold main_dispatch, health_command, health.
  cbn [String.eqb Ascii.eqb Bool.eqb].
  pose proof (_make_request_effect self1 "GET" "/health" None None) as H2.
  cbn zeta in H2. rewrite Hb1, Hu in H2.
  destruct (_make_request self1 "GET" "/health" None None) as [r2 self2].
  cbn [fst snd] in *. destruct H2 as (Hc2 & _).
  unfold request_of in *. rewrite Hb1, Ht1, Hc1 in Hc2.
  eexists. split.
  - destruct r2 as [w | [x | [] m]]; cbn; reflexivity.
  - cbn. exact Hc2.
Qed.

(** X24. [main] ends with a client exactly when a command was named and
    the constructor returned, and that client has been closed by then,
    however the command ended: no connection is left in its pool. *)
Theorem main_closes_client (net : network)
    (json_loads : string -> result pyval) (args : Namespace) (out : Console) :
  match snd (main net json_loads args out) with
  | Some client =>
      (exists before, client = snd (close before)) /\
      pool (session client) = [] /\
      (exists command, args_command args = Some command /\ command <> EmptyString) /\
      exists constructed,
        fst (__init__ net (Some (args_server args)) (Some (args_timeout args))
               None None None) = Return constructed
  | None =>
      args_command args = None \/ args_command args = Some EmptyString \/
      exists e,
        fst (__init__ net (Some (args_server args)) (Some (args_timeout args))
               None None None) = Raise e
  end.
Proof.
  unfold main.
  destruct (args_command args) as [[|a command]|]; [by right; left | | by left].
  destruct (__init__ _ _ _ _ _ _) as [[constructed | e] s].
  - destruct (main_dispatch _ _ _ _ _) as [[ctl o] client].
    destruct (main_except ctl o) as [ctl' o']. cbn.
    split; [by eexists|]. split; [reflexivity|]. split; by eexists.
  - destruct (main_except (Uncaught e) out) as [ctl' o']. cbn.
    right; right; by eexists.
Qed.

(** X25. When a command is named and the startup probe fails with a
    driver error, [main] runs no command: it writes the one line
    ["Error: Failed to connect to NenDB server at ..."] to the error
    stream, leaves the output stream alone and exits with status 1. *)
Theorem main_probe_failure (net : network)
    (json_loads : string -> result pyval) (args : Namespace) (out : Console)
    (command : string) (x : nendb_exn) :
  args_command args = Some command ->
  command <> EmptyString ->
  fst (health (client_before_probe net (Some (args_server args))
                 (Some (args_timeout args)) None None)) = Raise (NenDB x) ->
  main net json_loads args out
  = (SystemExit 1,
     {| stdout := stdout out;
        stderr := stderr out ++
          [Text ([Lit "Error: "; Lit "Failed to connect to NenDB server at ";
                  Lit (rstrip "/" (args_server args)); Lit ": "]
                   ++ NenDBError__str__ x)] |},
     None).
Proof.
  intros Hcmd Hne Hprobe. unfold main. rewrite Hcmd.
  destruct command as [|a command]; [done|].
  pose proof (__init___probe_raises net
    (Some (args_server args)) (Some (args_timeout args)) None None None x
    eq_refl Hprobe) as Hinit.
  destruct (__init__ _ _ _ _ _ _) as [r s]. cbn [fst] in Hinit. subst r.
  reflexivity.
Qed.

(** X26. [nendb bfs] with a negative [--start-node] sends nothing: the
    command writes the validation message to the error stream, nothing to
    the output stream, leaves the client as it was and exits with status
    1, provided the [--filters] text, if any, decodes. *)
Theorem bfs_command_negative_start_node (json_loads : string -> result pyval)
    (client : NenDBClient) (args : Namespace) (out : Console) (n : Z) :
  args_start_node args = PyInt n ->
  n < 0 ->
  (forall s, args_filters args = Some s -> exists f, json_loads s = Return f) ->
  bfs_command json_loads client args out
  = (SystemExit 1,
     {| stdout := stdout out;
        stderr := stderr out ++
          [Text [Lit "Error: "; Lit "start_node must be a non-negative integer"]] |},
     client).
Proof.
  intros Hs Hn Hf.
  assert (forall filters,
    bfs client (args_start_node args) (args_max_depth args) filters
    = (Raise (validation_error "start_node must be a non-negative integer"), client))
    as Hbfs.
  { intros filters. unfold bfs. rewrite Hs.
    assert (int_lt (PyInt n) 0 = true) as ->
      by (unfold int_lt; cbn [as_int]; by apply Z.ltb_lt).
    by rewrite orb_true_r. }
  unfold bfs_command.
  destruct (args_filters args) as [[|a s]|] eqn:Hfl.
  - by rewrite Hbfs.
  - destruct (Hf _ eq_refl) as (f & ->). by rewrite Hbfs.
  - by rewrite Hbfs.
Qed.

(** X27. [--filters] text that [json.loads] cannot decode is not reported
    as a driver error: the decoder's exception leaves [bfs_command] as it
    is, nothing is printed, the client is untouched and no request is
    made. *)
Theorem bfs_command_undecodable_filters (json_loads : string -> result pyval)
    (client : NenDBClient) (args : Namespace) (out : Console)
    (text : string) (c : foreign_class) (msg : string) :
  args_filters args = Some text ->
  text <> EmptyString ->
  json_loads text = Raise (Foreign c msg) ->
  bfs_command json_loads client args out = (Uncaught (Foreign c msg), out, client).
Proof.
  unfold bfs_command. intros -> Hne Hl.
  destruct text as [|a s]; [done|]. by rewrite Hl.
Qed.

End Driver.

(** * Instances

    The statements above hold for every [urljoin]; what follows runs the
    code on the example servers, with the [urljoin] of the examples. *)

#[local] Existing Instance example_urllib.

Lemma negative_start_node_rejected_witness :
  -1 < 0 /\
  rejected (client_on ok_network)
    (bfs (client_on ok_network) (PyInt (-1)) (PyInt 3) PyNone) /\
  rejected (client_on ok_network)
    (dijkstra (client_on ok_network) (PyInt (-1)) (PyInt 5) (PyStr "weight")).
Proof.
  split; [lia|].
  apply (negative_start_node_rejected (client_on ok_network) (-1)). lia.
Defined.

Lemma pagerank_out_of_range_rejected_witness :
  rejected (client_on ok_network)
    (pagerank (client_on ok_network) (PyInt 0)
       (PyFloat float_1_0) (PyFloat float_1_0)).
Proof.
  apply pagerank_out_of_range_rejected.
  left. exists 0. split; [reflexivity | lia].
Defined.

(** C4, as stated, fails: the empty string is a [str], so [dijkstra] with
    [weight_property=""] passes validation and the request is made. *)
Lemma dijkstra_empty_weight_property_dispatched :
  fst (dijkstra (client_on ok_network) (PyInt 0) (PyInt 1) (PyStr EmptyString))
    = Return (PyDict ∅) /\
  length (calls (session (snd
    (dijkstra (client_on ok_network) (PyInt 0) (PyInt 1) (PyStr EmptyString)))))
    = 1%nat /\
  ~ rejected (client_on ok_network)
      (dijkstra (client_on ok_network) (PyInt 0) (PyInt 1) (PyStr EmptyString)).
Proof.
  split; [reflexivity|]. split; [reflexivity|].
  intros ((x & Hx & _) & _). discriminate Hx.
Qed.

Lemma dijkstra_weight_property_not_str_rejected_witness :
  isinstance_str (PyInt 7) = false /\
  rejected (client_on ok_network)
    (dijkstra (client_on ok_network) (PyInt 0) (PyInt 5) (PyInt 7)).
Proof.
  split; [reflexivity|].
  apply dijkstra_weight_property_not_str_rejected. reflexivity.
Defined.

(** C2, on the code: a 200 response whose body is not JSON makes [health]
    raise an exception of the base class [NenDBError], not
    [NenDBResponseError], and its details hold neither the status code nor
    the response text. *)
Theorem invalid_json_degraded_to_generic_error :
  exists x,
    fst (health (client_on garbled_network)) = Raise (NenDB x) /\
    exn_class x = NenDBError /\
    details x !! "status_code" = None /\
    details x !! "response_text" = None /\
    ~ raises NenDBResponseError (fst (health (client_on garbled_network))).
Proof.
  destruct (invalid_json_leaves_as_generic (client_on garbled_network)
    "GET" "/health" None None garbled_response
    (Foreign JSONDecodeError "Expecting value: line 1 column 1 (char 0)"))
    as (x & Hx & Hc & Hd); try reflexivity.
  exists x. unfold health. rewrite Hx, Hd. repeat split; try done.
  intros (y & [= <-] & Hy). rewrite Hc in Hy. discriminate Hy.
Qed.





Lemma base_url_trailing_slashes_removed_witness :
  base_url (client_on ok_network) = rstrip "/" "http://localhost:8080//" /\
  (exists k, "http://localhost:8080//"%string
             = (base_url (client_on ok_network) ++ str_repeat "/" k)%string) /\
  last_char (base_url (client_on ok_network)) <> Some "/"%char /\
  (last_char "http://localhost:8080//" = Some "/"%char ->
   base_url (client_on ok_network) <> "http://localhost:8080//"%string).
Proof.
  apply (base_url_trailing_slashes_removed ok_network "http://localhost:8080//"
    None None None (Some true)).
  reflexivity.
Defined.

Lemma decoded_body_returned_verbatim_witness :
  fst (graph_stats (client_on ok_network)) = Return (PyDict ∅).
Proof.
  apply (decoded_body_returned_verbatim (client_on ok_network)
    "GET" "/graph/stats" None None
    (http_response 200 "{}" (Return (PyDict ∅)) "OK")); reflexivity.
Defined.

Lemma transport_connection_error_classified_witness :
  fst (health (client_on refusing_network))
    = Raise (NenDB {| exn_class := NenDBConnectionError;
                      message := [Lit "Connection failed to "; Lit "/health"; Lit ": ";
                                  Lit "Connection refused"];
                      details := ∅ |}).
Proof.
  apply (transport_connection_error_classified (client_on refusing_network)
    "GET" "/health" None None (Foreign ConnectionError "Connection refused"));
    reflexivity.
Defined.

Lemma transport_unexpected_error_wrapped_witness :
  fst (health (client_on exhausted_network))
    = Raise (NenDB {| exn_class := NenDBError;
                      message := [Lit "Unexpected error on "; Lit "/health"; Lit ": ";
                                  Lit "too many 503 error responses"];
                      details := ∅ |}).
Proof.
  apply (transport_unexpected_error_wrapped (client_on exhausted_network)
    "GET" "/health" None None (Foreign RetryError "too many 503 error responses"));
    reflexivity.
Defined.

Lemma _make_request_raises_driver_errors_witness :
  (exists v, fst (health (client_on not_found_network)) = Return v) \/
  (exists x, fst (health (client_on not_found_network)) = Raise (NenDB x)).
Proof.
  apply (_make_request_raises_driver_errors (client_on not_found_network)
    "GET" "/health" None None).
  - reflexivity.
  - intros e H. discriminate H.
  - intros response e [= <-] [[= <-] | H]; [reflexivity | discriminate H].
Defined.

Lemma transport_http_error_unbound_response_witness :
  exists msg,
    fst (health (client_on hooked_network)) = Raise (Foreign UnboundLocalError msg).
Proof.
  apply (transport_http_error_unbound_response (client_on hooked_network)
    "GET" "/health" None None
    (Foreign HTTPError "500 Server Error: Internal Server Error")); reflexivity.
Defined.

Lemma http_error_body_object_reported_witness :
  exists x,
    fst (health (client_on not_found_network)) = Raise (NenDB x) /\
    exn_class x = NenDBResponseError /\
    details x !! "response"
      = Some (PyDict (<["error" := PyStr "no such route"]> ∅)) /\
    details x !! "status_code" = Some (PyInt 404) /\
    message x = [Lit "HTTP error on "; Lit "/health"; Lit ": ";
                 Fmt (PyStr "no such route")].
Proof.
  apply (http_error_body_object_reported (client_on not_found_network)
    "GET" "/health" None None not_found_response
    (Foreign HTTPError "404 Client Error: Not Found")); reflexivity.
Defined.

Lemma http_error_body_fallback_witness :
  fst (health (client_on plain_error_network))
    = Raise (NenDB {| exn_class := NenDBResponseError;
                      message := [Lit "HTTP error on "; Lit "/health"; Lit ": ";
                                  Lit "403 Client Error: Forbidden"];
                      details := {[ "status_code"%string := PyInt 403 ]} |}).
Proof.
  apply (http_error_body_fallback (client_on plain_error_network)
    "GET" "/health" None None plain_error_response
    (Foreign HTTPError "403 Client Error: Forbidden")); reflexivity.
Defined.

Lemma bfs_request_payload_witness :
  exists data : pydict,
    bfs (client_on ok_network) (PyInt 0) (PyInt 3) PyNone
      = _make_request (client_on ok_network) "POST" "/graph/algorithms/bfs"
          (Some data) None /\
    data !! "start_node" = Some (PyInt 0) /\
    data !! "max_depth" = Some (PyInt 3) /\
    data !! "filters" = None /\
    size data = 2%nat.
Proof.
  apply (bfs_request_payload (client_on ok_network) (PyInt 0) (PyInt 3) PyNone).
  - exists 0. split; [reflexivity | lia].
  - exists 3. split; [reflexivity | lia].
Defined.

Lemma dijkstra_request_payload_witness :
  exists data : pydict,
    dijkstra (client_on ok_network) (PyInt 0) (PyInt 5) (PyStr "weight")
      = _make_request (client_on ok_network) "POST" "/graph/algorithms/dijkstra"
          (Some data) None /\
    data !! "start_node" = Some (PyInt 0) /\
    data !! "end_node" = Some (PyInt 5) /\
    data !! "weight_property" = Some (PyStr "weight") /\
    size data = 3%nat.
Proof.
  apply (dijkstra_request_payload (client_on ok_network) (PyInt 0) (PyInt 5) "weight").
  - exists 0. split; [reflexivity | lia].
  - exists 5. split; [reflexivity | lia].
Defined.

(** The instance that stands out: a NaN tolerance is dispatched. *)
Lemma pagerank_rejected_iff_witness :
  rejected (client_on ok_network)
    (pagerank (client_on ok_network) (PyInt 100) (PyFloat float_0_85)
       (PyFloat float_nan)) <->
  ~ (int_at_least 1 (PyInt 100) /\
     (exists f, PyFloat float_0_85 = PyFloat f /\ within_0_1 f) /\
     (exists f, PyFloat float_nan = PyFloat f /\ ~ at_most_0 f)).
Proof.
  apply (pagerank_rejected_iff (client_on ok_network)).
  - intros f [= <-]. reflexivity.
  - intros f [= <-]. reflexivity.
Defined.

Lemma pagerank_request_payload_witness :
  exists data : pydict,
    pagerank (client_on ok_network) (PyInt 100) (PyFloat float_0_85)
      (PyFloat float_nan)
      = _make_request (client_on ok_network) "POST" "/graph/algorithms/pagerank"
          (Some data) None /\
    data !! "iterations" = Some (PyInt 100) /\
    data !! "damping_factor" = Some (PyFloat float_0_85) /\
    data !! "tolerance" = Some (PyFloat float_nan) /\
    size data = 3%nat.
Proof.
  apply (pagerank_request_payload (client_on ok_network)).
  intros ((x & Hx & _) & _). discriminate Hx.
Defined.

Lemma operations_call_at_most_once_witness :
  calls (session (snd (bfs (client_on ok_network) (PyInt 0) (PyInt 3) PyNone)))
    = calls (session (client_on ok_network)) \/
  exists req,
    calls (session (snd (bfs (client_on ok_network) (PyInt 0) (PyInt 3) PyNone)))
      = calls (session (client_on ok_network)) ++ [req] /\
    req_timeout req = timeout (client_on ok_network) /\
    exists endpoint, req_url req = urljoin (base_url (client_on ok_network)) endpoint.
Proof.
  apply (operations_call_at_most_once (client_on ok_network)
    (PyInt 0) (PyInt 3) PyNone).
  right. right. left. reflexivity.
Defined.

Lemma constructor_probe_failure_is_connection_error_witness :
  fst (__init__ silent_network None None None None None)
  = Raise (NenDB
      {| exn_class := NenDBConnectionError;
         message :=
           [Lit "Failed to connect to NenDB server at ";
            Lit (rstrip "/" (default "http://localhost:8080"%string None));
            Lit ": "] ++
           NenDBError__str__
             {| exn_class := NenDBTimeoutError;
                message := [Lit "Request to "; Lit "/health"; Lit " timed out after ";
                            Fmt (PyInt 30); Lit " seconds"];
                details := ∅ |};
         details := ∅ |}).
Proof.
  apply (constructor_probe_failure_is_connection_error silent_network
    None None None None None); reflexivity.
Defined.

Lemma base_url_verbatim_without_trailing_slash_witness :
  base_url (client_before_probe ok_network (Some "https://db.example.org/api"%string)
              None None None)
  = "https://db.example.org/api"%string.
Proof.
  apply (base_url_verbatim_without_trailing_slash ok_network
    "https://db.example.org/api" None None None (Some true)).
  - discriminate.
  - reflexivity.
Defined.

Lemma base_url_normalisation_idempotent_witness :
  base_url (client_before_probe ok_network (Some "http://localhost:8080"%string)
              None None None)
  = base_url (client_before_probe ok_network (Some "http://localhost:8080///"%string)
                None None None).
Proof.
  apply (base_url_normalisation_idempotent ok_network ok_network
    "http://localhost:8080///" None None None None None None (Some true) (Some true));
    reflexivity.
Defined.

Lemma NenDBError__str___cases_witness :
  NenDBError__str__ (NenDBError__init__ NenDBError [Lit "Test error message"] None)
    = [Lit "Test error message"] /\
  NenDBError__str__
    (NenDBError__init__ NenDBError [Lit "Connection failed"]
       (Some {[ "status_code"%string := PyInt 500 ]}))
    = [Lit "Connection failed"; Lit " - Details: ";
       Fmt (PyDict {[ "status_code"%string := PyInt 500 ]})].
Proof.
  split.
  - apply (NenDBError__str___cases NenDBError [Lit "Test error message"] None).
    by left.
  - apply (NenDBError__str___cases NenDBError [Lit "Connection failed"]
      (Some {[ "status_code"%string := PyInt 500 ]})); [reflexivity|].
    intros H. apply (f_equal (lookup "status_code"%string)) in H. discriminate H.
Defined.

Lemma main_health_probes_twice_witness :
  exists client,
    snd (main ok_network example_loads health_args empty_console) = Some client /\
    calls (session client)
      = [ {| req_method := "GET";
             req_url := urljoin (rstrip "/" (args_server health_args)) "/health";
             req_json := None; req_params := None;
             req_timeout := args_timeout health_args |};
          {| req_method := "GET";
             req_url := urljoin (rstrip "/" (args_server health_args)) "/health";
             req_json := None; req_params := None;
             req_timeout := args_timeout health_args |} ].
Proof.
  apply (main_health_probes_twice ok_network example_loads health_args
    empty_console (PyDict ∅)); reflexivity.
Defined.

Lemma main_probe_failure_witness :
  main silent_network example_loads health_args empty_console
  = (SystemExit 1,
     {| stdout := [];
        stderr :=
          [Text [Lit "Error: "; Lit "Failed to connect to NenDB server at ";
                 Lit "http://localhost:8080"; Lit ": ";
                 Lit "Request to "; Lit "/health"; Lit " timed out after ";
                 Fmt (PyInt 30); Lit " seconds"]] |},
     None).
Proof.
  exact (main_probe_failure silent_network example_loads health_args empty_console
    "health"
    {| exn_class := NenDBTimeoutError;
       message := [Lit "Request to "; Lit "/health"; Lit " timed out after ";
                   Fmt (PyInt 30); Lit " seconds"];
       details := ∅ |}
    eq_refl ltac:(discriminate) eq_refl).
Defined.

Lemma bfs_command_negative_start_node_witness :
  bfs_command example_loads (client_on ok_network) (bfs_args (-1) (Some "{}"%string))
    empty_console
  = (SystemExit 1,
     {| stdout := stdout empty_console;
        stderr := stderr empty_console ++
          [Text [Lit "Error: "; Lit "start_node must be a non-negative integer"]] |},
     client_on ok_network).
Proof.
  apply (bfs_command_negative_start_node example_loads (client_on ok_network)
    (bfs_args (-1) (Some "{}"%string)) empty_console (-1)).
  - reflexivity.
  - lia.
  - intros s [= <-]. by eexists.
Defined.

Lemma bfs_command_undecodable_filters_witness :
  bfs_command example_loads (client_on ok_network)
    (bfs_args 0 (Some "{start"%string)) empty_console
  = (Uncaught (Foreign JSONDecodeError
       "Expecting property name enclosed in double quotes: line 1 column 2 (char 1)"),
     empty_console, client_on ok_network).
Proof.
  apply (bfs_command_undecodable_filters example_loads (client_on ok_network)
    (bfs_args 0 (Some "{start"%string)) empty_console "{start").
  - reflexivity.
  - discriminate.
  - reflexivity.
Defined.

(** On a base URL that [urljoin] turns down nothing is sent: an operation
    lets the [ValueError] through as it is, and the constructor reports
    its probe as a failed connection. *)
Lemma unclosed_bracket_no_request :
  health client_at_unclosed_bracket
    = (Raise (Foreign ValueError "Invalid IPv6 URL"), client_at_unclosed_bracket) /\
  calls (snd (__init__ ok_network (Some "http://[::1"%string) None None None None))
    = [] /\
  exists x,
    fst (__init__ ok_network (Some "http://[::1"%string) None None None None)
      = Raise (NenDB x) /\
    exn_class x = NenDBConnectionError.
Proof.
  split; [reflexivity|]. split; [reflexivity|].
  eexists. split; reflexivity.
Qed.
